(** * RetailInsight: the demand-forecasting engine

    A shallow embedding of [backend/model/predictor.py] (the forecaster the
    HTTP endpoint calls) and of [backend/model/matpfn.py] (the stand-alone
    [MATPFNModel.simple_forecast]), with the properties the specification
    states about them.

    Number model.  Python floats are idealised as exact rationals [Q]
    (equality is [Qeq], written [==]).  Integers are [Z], lengths [nat].
    Calendar days are proleptic Gregorian ordinals in [Z], as returned by
    [date.toordinal()]. *)

From Stdlib Require Import ZArith QArith Qround Lqa Lia List.
From stdpp Require Import gmap strings list sorting.

Local Open Scope Q_scope.

(** ** Numeric helpers (numpy / builtins on exact rationals) *)

Definition Qltb (a b : Q) : bool :=
  match Qcompare a b with Lt => true | _ => false end.

(** Python's [max(a, b)]: the first argument unless the second is greater. *)
Definition py_max (a b : Q) : Q := if Qltb a b then b else a.

(** Python's [min(a, b)]: the first argument unless the second is smaller. *)
Definition py_min (a b : Q) : Q := if Qltb b a then b else a.

Definition Qsum (l : list Q) : Q := fold_right Qplus 0 l.

Definition Qlen (l : list Q) : Q := inject_Z (Z.of_nat (length l)).

(** [np.mean] / [Series.mean].  The callers below never pass an empty
    list; on one the quotient by zero is [0] here. *)
Definition np_mean (l : list Q) : Q := Qsum l / Qlen l.

(** The slice [l[-n:]] for a positive [n]. *)
Definition last_n {A : Type} (n : nat) (l : list A) : list A :=
  skipn (length l - n) l.

(** [np.arange(w, dtype=float)]. *)
Definition arange (w : nat) : list Q :=
  map (fun i => inject_Z (Z.of_nat i)) (seq 0 w).

Definition Qdot (xs ys : list Q) : Q :=
  Qsum (map (fun p => fst p * snd p) (combine xs ys)).

(** [np.polyfit(x, y, 1)], taken at its documented contract: the
    coefficients [(a, b)] of the least-squares line [y = a*x + b], in the
    closed form of the normal equations. *)
Definition polyfit1 (xs ys : list Q) : Q * Q :=
  let n := Qlen xs in
  let sx := Qsum xs in
  let sy := Qsum ys in
  let sxx := Qdot xs xs in
  let sxy := Qdot xs ys in
  let a := (n * sxy - sx * sy) / (n * sxx - sx * sx) in
  let b := (sy - a * sx) / n in
  (a, b).

(** [date.weekday()] / [dt.dayofweek]: Monday is 0.  Ordinal 1 is a
    Monday. *)
Definition weekday (d : Z) : Z := ((d + 6) mod 7)%Z.

(** [range(1, horizon + 1)]. *)
Definition steps (horizon : Z) : list Z :=
  map Z.of_nat (seq 1 (Z.to_nat horizon)).

(** [round(x)] on a float: to the nearest integer, ties to the even one. *)
Definition py_round (x : Q) : Z :=
  let f := Qfloor x in
  match Qcompare (x - inject_Z f) (1 # 2) with
  | Lt => f
  | Gt => (f + 1)%Z
  | Eq => if Z.even f then f else (f + 1)%Z
  end.

(** [int(x)] on a float: truncation toward zero. *)
Definition py_int (x : Q) : Z := Z.quot (Qnum x) (Z.pos (Qden x)).

(** ** pandas helpers *)

(** [groupby(key)[col]]: the values of each key, in row order. *)
Definition groupby (kvs : list (Z * Q)) : gmap Z (list Q) :=
  fold_left
    (fun m kv => <[kv.1 := default [] (m !! kv.1) ++ [kv.2]]> m)
    kvs ∅.

(** [sort_values("date")], as a stable insertion sort on the date key:
    pandas leaves the order of rows with equal dates open, here they keep
    the order they came in. *)
Fixpoint insert_by {A : Type} (key : A -> Z) (r : A) (l : list A) : list A :=
  match l with
  | [] => [r]
  | r' :: l' =>
      if (key r' <=? key r)%Z then r' :: insert_by key r l'
      else r :: l
  end.

Definition sort_values {A : Type} (key : A -> Z) (l : list A) : list A :=
  fold_left (fun acc r => insert_by key r acc) l [].

(** ** predictor.py *)

Module Predictor.

Record row := mk_row {
  product_id : string;
  date : Z;
  quantity_sold : Q
}.

(** [_compute_trend(values, max_window)].  [None] stands for the
    exception Python raises: [values[-1]] on an empty list, and
    [np.polyfit] on an empty [x].  The fit stands for [np.polyfit] on a
    window of two points or more, where the abscissae [0, 1, ...] are
    distinct; the only caller passes 90.  On a window of one point
    (two values or more with [max_window = 1]) [np.polyfit] has no
    rational answer, and nothing below is stated about that case. *)
Definition _compute_trend (values : list Q) (max_window : nat)
  : option (Q * Q) :=
  let n := length values in
  if (n <? 2)%nat then
    match last values with
    | Some v => Some (0, v)
    | None => None
    end
  else
    let window := Nat.min n max_window in
    if (window =? 0)%nat then None else
    let y := last_n window values in
    let x := arange window in
    let '(a, b) := polyfit1 x y in
    Some (a, b + a * (inject_Z (Z.of_nat window) - 1)).

(** [_compute_seasonality_by_dow(df_p)]: the dict day-of-week -> mean. *)
Definition _compute_seasonality_by_dow (df_p : list row) : gmap Z Q :=
  np_mean <$> groupby (map (fun r => (weekday (date r), quantity_sold r)) df_p).

(** [df_p["date"].max()]; only evaluated on a non-empty frame. *)
Definition date_max (df_p : list row) : Z :=
  match map date df_p with
  | [] => 0%Z
  | d :: ds => fold_left Z.max ds d
  end.

Definition w_level : Q := 4 # 10.
Definition w_trend : Q := 4 # 10.
Definition w_season : Q := 2 # 10.

(** What the loop reads but never writes. *)
Record context := mk_context {
  last_date : Z;
  overall_mean : Q;
  dow_means : gmap Z Q;
  slope : Q;
  last_trend_level : Q
}.

(** What the loop body updates. *)
Record loop_state := mk_state {
  window_values : list Q;
  future_values : list Q;
  future_dates : list Z
}.

Definition level_component (window_values : list Q) : Q :=
  if (7 <=? length window_values)%nat
  then np_mean (last_n 7 window_values)
  else np_mean window_values.

Definition trend_component (c : context) (step : Z) : Q :=
  last_trend_level c + slope c * inject_Z step.

Definition season_component (c : context) (step : Z) : Q :=
  let future_date := (last_date c + step)%Z in
  let dow := weekday future_date in
  default (overall_mean c) (dow_means c !! dow).

(** The fused value, lines 95-99, before the floor of line 102. *)
Definition fused (c : context) (window_values : list Q) (step : Z) : Q :=
  w_level * level_component window_values
  + w_trend * trend_component c step
  + w_season * season_component c step.

(** Line 108 alone: the window between the append and the test of line
    109. *)
Definition append_window (window_values : list Q) (y_hat : Q) : list Q :=
  window_values ++ [y_hat].

(** Lines 107-110: append, then drop the head when longer than 30. *)
Definition update_window (window_values : list Q) (y_hat : Q) : list Q :=
  let w := window_values ++ [y_hat] in
  if (30 <? length w)%nat then tl w else w.

(** One iteration of the [for step in range(1, horizon + 1)] loop.
    Dates are unbounded integers: the [OutOfBoundsDatetime] that
    [last_date + timedelta(days=step)] raises past the last [Timestamp]
    is not an outcome here, see [dates_representable]. *)
Definition forecast_step (c : context) (st : loop_state) (step : Z)
  : loop_state :=
  let future_date := (last_date c + step)%Z in
  let y_hat := fused c (window_values st) step in
  let y_hat := py_max 0 y_hat in
  {| window_values := update_window (window_values st) y_hat;
     future_values := future_values st ++ [y_hat];
     future_dates := future_dates st ++ [future_date] |}.

Definition run_loop (c : context) (st : loop_state) (ss : list Z)
  : loop_state :=
  fold_left (forecast_step c) ss st.

Inductive result :=
| Error (msg : string)
| Raised
| Forecast (pid : string) (forecast : list Q) (history : list (Z * Q)).

Definition select_product (df : list row) (pid : string) : list row :=
  sort_values date (filter (fun r => bool_decide (product_id r = pid)) df).

Definition initial_state (qty : list Q) : loop_state :=
  {| window_values := last_n 30 qty;
     future_values := [];
     future_dates := [] |}.

(** Lines 53-61: everything computed from the frame before the loop. *)
Definition make_context (df_p : list row) : option context :=
  let qty := map quantity_sold df_p in
  match _compute_trend qty 90 with
  | None => None
  | Some (slope, last_trend_level) =>
      Some {| last_date := date_max df_p;
              overall_mean := np_mean qty;
              dow_means := _compute_seasonality_by_dow df_p;
              slope := slope;
              last_trend_level := last_trend_level |}
  end.

(** [forecast_product(product_id, horizon)]; the module-level [df] is a
    parameter. *)
Definition forecast_product (df : list row) (pid : string) (horizon : Z)
  : result :=
  let df_p := select_product df pid in
  if (length df_p =? 0)%nat then
    Error "No sales data for this product."
  else if (length df_p <? 30)%nat then
    Error "Not enough history (<30 days) for this product."
  else
    let qty := map quantity_sold df_p in
    match make_context df_p with
    | None => Raised
    | Some c =>
        let st := run_loop c (initial_state qty) (steps horizon) in
        Forecast pid (future_values st)
          (map (fun r => (date r, quantity_sold r)) (last_n 120 df_p))
    end.

(** The loop state once the first [k] iterations have run. *)
Definition state_after (c : context) (qty : list Q) (horizon : Z) (k : nat)
  : loop_state :=
  run_loop c (initial_state qty) (firstn k (steps horizon)).

End Predictor.

(** ** matpfn.py *)

Module Matpfn.

(** A row of [pdf] once [pd.to_datetime(..., errors="coerce")] has run:
    [None] is [NaT], an unparsable date. *)
Record row := mk_row {
  date : option Z;
  quantity_sold : Q
}.

(** [df.dropna(subset=["date"])]. *)
Definition dropna_date (df : list row) : list (Z * Q) :=
  omap (fun r => (fun d => (d, quantity_sold r)) <$> date r) df.

(** [df["date"].min()]; only evaluated on a non-empty frame. *)
Definition date_min (df : list (Z * Q)) : Z :=
  match map fst df with
  | [] => 0%Z
  | d :: ds => fold_left Z.min ds d
  end.

(** [np.all(t == t[0])]. *)
Definition all_same (t : list Q) : bool :=
  match t with
  | [] => true
  | t0 :: _ => forallb (fun x => Qeq_bool x t0) t
  end.

(** The sum of squared deviations over [n - 1], whose square root is
    [Series.std()]. *)
Definition sample_var (l : list Q) : Q :=
  Qsum (map (fun x => (x - np_mean l) * (x - np_mean l)) l) / (Qlen l - 1).

Inductive outcome :=
| Returned (forecast_vals : list Z)
| IndexError.

Section WithSqrt.

(** The floating-point square root inside [Series.std()]. *)
Variable np_sqrt : Q -> Q.

Definition series_std (l : list Q) : Q := np_sqrt (sample_var l).

(** The values fixed before the loop. *)
Record context := mk_context {
  trend_slope : Q;
  trend_intercept : Q;
  dow_means : gmap Z Q;
  global_mean : Q;
  level_mean : Q;
  last_val : Q;
  vol : Q;
  last_date : Z;
  min_date : Z
}.

Definition trend_pred (c : context) (i : Z) : Q :=
  let future_date := (last_date c + i)%Z in
  let t_future := (future_date - min_date c)%Z in
  trend_slope c * inject_Z t_future + trend_intercept c.

Definition seasonal_adj (c : context) (i : Z) : Q :=
  let future_date := (last_date c + i)%Z in
  let dow := weekday future_date in
  let dow_mean := default (global_mean c) (dow_means c !! dow) in
  dow_mean - global_mean c.

(** Lines 89-93. *)
Definition fused (c : context) (i : Z) : Q :=
  (5 # 10) * trend_pred c i
  + (3 # 10) * (level_mean c + seasonal_adj c i)
  + (2 # 10) * last_val c.

(** Lines 96-99. *)
Definition clip (c : context) (fused : Q) : Q :=
  if Qltb 0 (vol c) then
    let lower := global_mean c - 3 * vol c in
    let upper := global_mean c + 3 * vol c in
    py_max lower (py_min upper fused)
  else fused.

(** Line 101. *)
Definition forecast_val (c : context) (i : Z) : Z :=
  Z.max 0 (py_round (clip c (fused c i))).

Definition fit_trend (t y : list Q) : Q * Q :=
  if all_same t then (0, np_mean y) else polyfit1 t y.

Definition make_context (df : list (Z * Q)) (last_row : Z * Q) : context :=
  let t := map (fun r => inject_Z (r.1 - date_min df)) df in
  let y := map snd df in
  let '(trend_slope, trend_intercept) := fit_trend t y in
  let window := Nat.min 7 (length df) in
  {| trend_slope := trend_slope;
     trend_intercept := trend_intercept;
     dow_means := np_mean <$> groupby (map (fun r => (weekday r.1, r.2)) df);
     global_mean := np_mean y;
     level_mean := np_mean (last_n window y);
     last_val := last_row.2;
     vol := if (1 <? length df)%nat then series_std y else 0;
     last_date := last_row.1;
     min_date := date_min df |}.

(** [MATPFNModel.simple_forecast(pdf, horizon)].  The frame always has
    its two columns here, so the column test of line 30 is the emptiness
    test; [iloc[-1]] on an empty frame raises [IndexError].  Quantities
    are numbers (no [NaN]) and dates unbounded integers, so [IndexError]
    is the one exception among the outcomes. *)
Definition simple_forecast (pdf : list row) (horizon : Z) : outcome :=
  if (length pdf =? 0)%nat then Returned [] else
  let df := sort_values fst (dropna_date pdf) in
  if (length df <? 5)%nat then
    match last df with
    | None => IndexError
    | Some last_row =>
        let last_val := py_int last_row.2 in
        Returned (replicate (Z.to_nat horizon) last_val)
    end
  else
    match last df with
    | None => IndexError
    | Some last_row =>
        let c := make_context df last_row in
        Returned (map (forecast_val c) (steps horizon))
    end.

End WithSqrt.

End Matpfn.

(** ** Notions used by the statements *)

(** The sum of squared residuals of the line [y = a*x + b]. *)
Definition sse (xs ys : list Q) (a b : Q) : Q :=
  Qsum (map (fun p => (p.2 - (a * p.1 + b)) * (p.2 - (a * p.1 + b)))
          (combine xs ys)).

(** The line [y = a*x + b] at [x]. *)
Definition line (a b x : Q) : Q := a * x + b.

(** [y] is within three standard deviations of [mean], the standard
    deviation being the square root of [variance]; compared on squares,
    so that no square root is taken. *)
Definition within_three_sigma (mean variance y : Q) : Prop :=
  (y - mean) * (y - mean) <= 9 * variance.

(** The last day a pandas [Timestamp] holds in full, 2262-04-10, as an
    ordinal, and the most whole days a [Timedelta] holds. *)
Definition timestamp_max_day : Z := 825913.
Definition timedelta_max_days : Z := 106751.

(** Every date [last_date + step], [step <= horizon], that the loop of
    [forecast_product] builds is one pandas can hold. *)
Definition dates_representable (last_date horizon : Z) : Prop :=
  (horizon <= timedelta_max_days)%Z
  /\ (last_date + horizon <= timestamp_max_day)%Z.


(** ** Sample inputs *)

Module Samples.

(** A fixed-precision square root: the integer square root of the
    argument scaled by [4^40], scaled back by [2^40]. *)
Definition sqrt_approx (x : Q) : Q :=
  inject_Z (Z.sqrt (Qnum x * Z.pos (Qden x) * 4 ^ 40))
  / inject_Z (Z.pos (Qden x) * 2 ^ 40).

(** Day 0 of the samples: ordinal 738156, Saturday 2022-01-01. *)
Definition day0 : Z := 738156.

(** [n] consecutive days of product "P1" selling [f i] on day [i]. *)
Definition daily (n : nat) (f : nat -> Q) : list Predictor.row :=
  map (fun i => Predictor.mk_row "P1" (day0 + Z.of_nat i)%Z (f i)) (seq 0 n).

(** 35 consecutive days of quantity 10. *)
Definition flat35 : list Predictor.row := daily 35 (fun _ => 10).

(** 358 days without a sale, then a week of 100 a day. *)
Definition spike365 : list Predictor.row :=
  daily 365 (fun i => if (358 <=? i)%nat then 100 else 0).

(** The same shapes as frames for [simple_forecast]. *)
Definition frame (n : nat) (f : nat -> Q) : list Matpfn.row :=
  map (fun i => Matpfn.mk_row (Some (day0 + Z.of_nat i)%Z) (f i)) (seq 0 n).


(** Three observations, the last one 7. *)
Definition short3 : list Matpfn.row :=
  [Matpfn.mk_row (Some day0) 4;
   Matpfn.mk_row (Some (day0 + 1)%Z) 9;
   Matpfn.mk_row (Some (day0 + 2)%Z) 7].

(** Three observations, the last one 7.5. *)
Definition short3_half : list Matpfn.row :=
  [Matpfn.mk_row (Some day0) 4;
   Matpfn.mk_row (Some (day0 + 1)%Z) 9;
   Matpfn.mk_row (Some (day0 + 2)%Z) (15 # 2)].

(** One observation: a net return of 3 units. *)
Definition one_return : list Matpfn.row :=
  [Matpfn.mk_row (Some day0) (-3)].

(** Six rows that all carry the same date. *)
Definition same_day6 : list Matpfn.row :=
  map (fun q => Matpfn.mk_row (Some day0) q) [3; 5; 4; 6; 5; 7].

(** Ten days rising by 2 a day. *)
Definition rising10 : list Matpfn.row :=
  frame 10 (fun i => 2 * inject_Z (Z.of_nat i)).

End Samples.

(** ** app.py *)

Module App.

(** [Series.unique()]: the distinct values, in order of first
    appearance. *)
Definition unique (l : list string) : list string :=
  fold_left
    (fun seen x => if bool_decide (x ∈ seen) then seen else seen ++ [x])
    l [].

(** [sorted(...)] on strings, as a stable insertion sort.  Python orders
    strings by code point, which on UTF-8 bytes is the byte-wise
    lexicographic order of [String.leb]. *)
Fixpoint insert_str (s : string) (l : list string) : list string :=
  match l with
  | [] => [s]
  | s' :: l' =>
      if String.leb s' s then s' :: insert_str s l' else s :: l
  end.

Definition sorted (l : list string) : list string :=
  fold_left (fun acc s => insert_str s acc) l [].

(** The module-level [PRODUCT_LIST]; [df] is the frame that
    [prepare_dataset()] returned, the same one [predictor.py] holds. *)
Definition PRODUCT_LIST (df : list Predictor.row) : list string :=
  sorted (unique (map Predictor.product_id df)).

Record health_body := mk_health {
  status : string;
  products : nat
}.

(** [GET /health]. *)
Definition health (df : list Predictor.row) : health_body :=
  {| status := "ok"; products := length (PRODUCT_LIST df) |}.

(** [GET /products]. *)
Definition get_products (df : list Predictor.row) : list string :=
  PRODUCT_LIST df.

(** What the handler gives back: a raised [HTTPException], an exception
    of [forecast_product] passing through, or the result dict. *)
Inductive response :=
| HTTPException (status_code : Z) (detail : string)
| Unhandled
| Body (pid : string) (forecast : list Q) (history : list (Z * Q)).

(** [GET /predict/{product_id}]. *)
Definition predict_product (df : list Predictor.row) (pid : string)
    (horizon : Z) : response :=
  if bool_decide (pid ∈ PRODUCT_LIST df) then
    match Predictor.forecast_product df pid horizon with
    | Predictor.Error msg => HTTPException 500 msg
    | Predictor.Raised => Unhandled
    | Predictor.Forecast p forecast history => Body p forecast history
    end
  else HTTPException 404 "Unknown product_id".

End App.

(** Rows in non-decreasing order of an integer key. *)
Definition by_key {A : Type} (key : A -> Z) : relation A :=
  fun a b => (key a <= key b)%Z.

(** Strings in ascending order. *)
Definition str_le : relation string := fun a b => String.leb a b = true.

(** The same row, [delta] days later. *)
Definition shift_days (delta : Z) (r : Predictor.row) : Predictor.row :=
  {| Predictor.product_id := Predictor.product_id r;
     Predictor.date := (Predictor.date r + delta)%Z;
     Predictor.quantity_sold := Predictor.quantity_sold r |}.

(** The same frame row, [delta] days later; an unparsable date stays
    unparsable. *)
Definition shift_frame_days (delta : Z) (r : Matpfn.row) : Matpfn.row :=
  {| Matpfn.date := (fun d => (d + delta)%Z) <$> Matpfn.date r;
     Matpfn.quantity_sold := Matpfn.quantity_sold r |}.

(** The same (date, quantity) pair, [delta] days later. *)
Definition shift_pair (delta : Z) (dq : Z * Q) : Z * Q :=
  ((dq.1 + delta)%Z, dq.2).

Module MoreSamples.

(** Forty consecutive days selling 0, 1, 2, ... *)
Definition ramp40 : list Predictor.row :=
  Samples.daily 40 (fun i => inject_Z (Z.of_nat i)).

(** 120 consecutive days selling 3 + 2 * day. *)
Definition line120 : list Q :=
  map (fun i => 3 + 2 * inject_Z (Z.of_nat i)) (seq 0 120).

(** Rows of three products, in no particular order. *)
Definition mixed : list Predictor.row :=
  [Predictor.mk_row "B1" 738160 4;
   Predictor.mk_row "A9" 738158 1;
   Predictor.mk_row "B1" 738157 2;
   Predictor.mk_row "A10" 738159 7;
   Predictor.mk_row "A9" 738156 5].

(** Ten dated rows rising by 2 a day, with two undated rows among
    them. *)
Definition rising10_gaps : list Matpfn.row :=
  Matpfn.mk_row None 50 :: Samples.rising10 ++ [Matpfn.mk_row None 70].


(** The same as rows of product "P1" for [forecast_product]. *)
Definition half35 : list Predictor.row :=
  Samples.daily 35 (fun _ => 5 # 2).

End MoreSamples.

(** * Properties *)

Section NumericFacts.

Lemma Qltb_true a b : Qltb a b = true <-> a < b.
Proof.
  unfold Qltb. rewrite Qlt_alt. destruct (Qcompare a b); split; congruence.
Qed.

Lemma Qltb_false a b : Qltb a b = false <-> b <= a.
Proof.
  pose proof (Qltb_true a b) as H. split.
  - intros E. apply Qnot_lt_le. intros Hlt. apply H in Hlt. congruence.
  - intros Hle. destruct (Qltb a b); [|done].
    exfalso. apply (Qle_not_lt _ _ Hle). by apply H.
Qed.

Lemma py_max_lower a b : a <= py_max a b.
Proof.
  unfold py_max. destruct (Qltb a b) eqn:E.
  - apply Qltb_true in E. lra.
  - lra.
Qed.

Lemma py_max_cases a b : (a < b /\ py_max a b = b) \/ (b <= a /\ py_max a b = a).
Proof.
  unfold py_max. destruct (Qltb a b) eqn:E.
  - left. apply Qltb_true in E. auto.
  - right. apply Qltb_false in E. auto.
Qed.

Lemma py_min_cases a b : (b < a /\ py_min a b = b) \/ (a <= b /\ py_min a b = a).
Proof.
  unfold py_min. destruct (Qltb b a) eqn:E.
  - left. apply Qltb_true in E. auto.
  - right. apply Qltb_false in E. auto.
Qed.


Lemma Qsum_app l1 l2 : Qsum (l1 ++ l2) == Qsum l1 + Qsum l2.
Proof.
  induction l1 as [|x l1 IH]; simpl; [lra | rewrite IH; lra].
Qed.


Lemma Qlen_pos l : l <> [] -> 0 < Qlen l.
Proof.
  intros H. unfold Qlen. destruct l; [congruence|].
  change 0 with (inject_Z 0). rewrite <- Zlt_Qlt. simpl. lia.
Qed.





End NumericFacts.

Section ListFacts.

Context {A : Type}.

Lemma last_n_length (n : nat) (l : list A) :
  length (last_n n l) = Nat.min n (length l).
Proof. unfold last_n. rewrite length_skipn. lia. Qed.


Lemma insert_by_length (key : A -> Z) r (l : list A) :
  length (insert_by key r l) = S (length l).
Proof.
  induction l as [|r' l IH]; simpl; [done|].
  destruct (key r' <=? key r)%Z; simpl; congruence.
Qed.

Lemma insert_by_Forall (P : A -> Prop) (key : A -> Z) r (l : list A) :
  P r -> Forall P l -> Forall P (insert_by key r l).
Proof.
  intros Hr. induction 1 as [|r' l Hr' Hl IH]; simpl.
  - by constructor.
  - destruct (key r' <=? key r)%Z; repeat constructor; auto.
Qed.

Lemma sort_values_acc_length (key : A -> Z) (l acc : list A) :
  length (fold_left (fun acc r => insert_by key r acc) l acc)
  = (length l + length acc)%nat.
Proof.
  revert acc. induction l as [|r l IH]; intros acc; simpl; [done|].
  rewrite IH, insert_by_length. lia.
Qed.

Lemma sort_values_length (key : A -> Z) (l : list A) :
  length (sort_values key l) = length l.
Proof. unfold sort_values. rewrite sort_values_acc_length. simpl. lia. Qed.

Lemma sort_values_acc_Forall (P : A -> Prop) (key : A -> Z) (l acc : list A) :
  Forall P l -> Forall P acc ->
  Forall P (fold_left (fun acc r => insert_by key r acc) l acc).
Proof.
  intros Hl. revert acc. induction Hl as [|r l Hr Hl IH]; intros acc Hacc; simpl.
  - done.
  - apply IH. by apply insert_by_Forall.
Qed.

Lemma sort_values_Forall (P : A -> Prop) (key : A -> Z) (l : list A) :
  Forall P l -> Forall P (sort_values key l).
Proof. intros H. apply sort_values_acc_Forall; [done | constructor]. Qed.

End ListFacts.

(** ** The forecast loop of [forecast_product] *)

Section LoopFacts.

Import Predictor.

Lemma update_window_length w y :
  length (update_window w y)
  = if (30 <=? length w)%nat then length w else S (length w).
Proof.
  unfold update_window. rewrite length_app.
  change (length [y]) with 1%nat.
  destruct (Nat.ltb_spec 30 (length w + 1)), (Nat.leb_spec 30 (length w));
    try lia.
  - destruct w as [|x w]; [cbn [length] in *; lia|].
    cbn [app tl]. rewrite length_app. cbn [length]. lia.
  - rewrite length_app. cbn [length]. lia.
Qed.

Lemma update_window_fifo w y :
  update_window w y
  = if (length w <? 30)%nat then w ++ [y] else tl w ++ [y].
Proof.
  unfold update_window. rewrite length_app.
  change (length [y]) with 1%nat.
  destruct (Nat.ltb_spec 30 (length w + 1)), (Nat.ltb_spec (length w) 30);
    try lia.
  - destruct w as [|x w]; [cbn [length] in *; lia | done].
  - done.
Qed.

Lemma update_window_append w y :
  update_window w y
  = if (30 <? length (append_window w y))%nat
    then tl (append_window w y) else append_window w y.
Proof. reflexivity. Qed.

Lemma level_component_mean w :
  level_component w = np_mean (last_n (Nat.min 7 (length w)) w).
Proof.
  unfold level_component. destruct (Nat.leb_spec 7 (length w)).
  - by rewrite Nat.min_l.
  - rewrite Nat.min_r by lia. unfold last_n. by rewrite Nat.sub_diag.
Qed.

Lemma run_loop_app c st ss1 ss2 :
  run_loop c st (ss1 ++ ss2) = run_loop c (run_loop c st ss1) ss2.
Proof. apply fold_left_app. Qed.

Lemma run_loop_snoc c st ss s :
  run_loop c st (ss ++ [s]) = forecast_step c (run_loop c st ss) s.
Proof. by rewrite run_loop_app. Qed.

Lemma run_loop_window_le c ss : forall st,
  (length (window_values st) <= 30)%nat ->
  (length (window_values (run_loop c st ss)) <= 30)%nat.
Proof.
  induction ss as [|s ss IH]; intros st H; simpl; [done|].
  apply IH. cbn [forecast_step window_values]. rewrite update_window_length.
  destruct (Nat.leb_spec 30 (length (window_values st))); lia.
Qed.

Lemma run_loop_window_30 c ss : forall st,
  length (window_values st) = 30%nat ->
  length (window_values (run_loop c st ss)) = 30%nat.
Proof.
  induction ss as [|s ss IH]; intros st H; simpl; [done|].
  apply IH. cbn [forecast_step window_values].
  by rewrite update_window_length, H.
Qed.

Lemma run_loop_future_values_length c ss : forall st,
  length (future_values (run_loop c st ss))
  = (length (future_values st) + length ss)%nat.
Proof.
  induction ss as [|s ss IH]; intros st; simpl; [lia|].
  rewrite IH. simpl. rewrite length_app. simpl. lia.
Qed.

Lemma run_loop_future_dates c ss : forall st,
  future_dates (run_loop c st ss)
  = future_dates st ++ map (fun s => (last_date c + s)%Z) ss.
Proof.
  induction ss as [|s ss IH]; intros st; simpl.
  - by rewrite app_nil_r.
  - rewrite IH. simpl. by rewrite <- app_assoc.
Qed.

Lemma steps_length horizon : length (steps horizon) = Z.to_nat horizon.
Proof. unfold steps. by rewrite length_map, length_seq. Qed.

Lemma initial_window_le qty :
  (length (window_values (initial_state qty)) <= 30)%nat.
Proof. simpl. rewrite last_n_length. lia. Qed.

Lemma initial_window_30 qty :
  (30 <= length qty)%nat ->
  length (window_values (initial_state qty)) = 30%nat.
Proof. intros H. simpl. rewrite last_n_length. lia. Qed.

Lemma compute_trend_fits values :
  (2 <= length values)%nat ->
  let w := Nat.min (length values) 90 in
  let ab := polyfit1 (arange w) (last_n w values) in
  _compute_trend values 90
  = Some (ab.1, ab.2 + ab.1 * (inject_Z (Z.of_nat w) - 1)).
Proof.
  intros H w ab. unfold _compute_trend.
  destruct (Nat.ltb_spec (length values) 2); [lia|].
  fold w. destruct (Nat.eqb_spec w 0); [lia|].
  fold ab. by destruct ab.
Qed.

Lemma make_context_some df_p :
  (2 <= length df_p)%nat -> is_Some (make_context df_p).
Proof.
  intros H. unfold make_context.
  rewrite compute_trend_fits by (by rewrite length_map). by eexists.
Qed.

Lemma select_product_length df pid :
  length (select_product df pid)
  = length (filter (fun r => bool_decide (product_id r = pid)) df).
Proof. apply sort_values_length. Qed.

End LoopFacts.

Section WindowFacts.

Import Predictor.

Lemma tl_skipn {A : Type} (d : nat) (l : list A) :
  tl (skipn d l) = skipn (S d) l.
Proof.
  revert l. induction d as [|d IH]; intros [|x l]; try done.
  cbn [skipn]. rewrite IH. by destruct l.
Qed.

Lemma update_window_last_n (l : list Q) (y : Q) :
  update_window (last_n 30 l) y = last_n 30 (l ++ [y]).
Proof.
  rewrite update_window_fifo, last_n_length. unfold last_n.
  rewrite length_app. change (length [y]) with 1%nat.
  destruct (Nat.ltb_spec (Nat.min 30 (length l)) 30) as [H|H].
  - replace (length l - 30)%nat with 0%nat by lia.
    replace (length l + 1 - 30)%nat with 0%nat by lia. done.
  - rewrite tl_skipn.
    replace (length l + 1 - 30)%nat with (S (length l - 30)) by lia.
    rewrite skipn_app.
    replace (S (length l - 30) - length l)%nat with 0%nat by lia. done.
Qed.

(** The window is always the last 30 of: the seed, then the values
    predicted so far. *)
Lemma run_loop_window_contents c ss : forall st seed,
  window_values st = last_n 30 (seed ++ future_values st) ->
  window_values (run_loop c st ss)
  = last_n 30 (seed ++ future_values (run_loop c st ss)).
Proof.
  induction ss as [|s ss IH]; intros st seed H; [done|].
  cbn [run_loop fold_left]. apply IH.
  cbn [forecast_step window_values future_values].
  rewrite H at 1. rewrite update_window_last_n.
  rewrite H, app_assoc. done.
Qed.

Lemma state_after_window_contents c qty horizon k :
  window_values (state_after c qty horizon k)
  = last_n 30 (last_n 30 qty
               ++ future_values (state_after c qty horizon k)).
Proof.
  unfold state_after. apply run_loop_window_contents.
  cbn [initial_state window_values future_values].
  rewrite app_nil_r. symmetry.
  change (skipn (length (last_n 30 qty) - 30) (last_n 30 qty) = last_n 30 qty).
  rewrite last_n_length.
  replace (Nat.min 30 (length qty) - 30)%nat with 0%nat by lia. done.
Qed.

Lemma run_loop_future_values_lookup c ss : forall st i s,
  ss !! i = Some s ->
  future_values (run_loop c st ss) !! (length (future_values st) + i)%nat
  = Some (py_max 0 (fused c (window_values (run_loop c st (firstn i ss))) s)).
Proof.
  induction ss as [|s' ss IH] using rev_ind; intros st i s Hi; [done|].
  rewrite run_loop_snoc. cbn [forecast_step future_values].
  destruct (decide (i < length ss)%nat) as [Hlt|Hge].
  - rewrite lookup_app_l in Hi by done.
    rewrite firstn_app. replace (i - length ss)%nat with 0%nat by lia.
    cbn [firstn]. rewrite app_nil_r.
    rewrite lookup_app_l by (rewrite run_loop_future_values_length; lia).
    by apply IH.
  - assert (i = length ss) as ->.
    { apply lookup_lt_Some in Hi. rewrite length_app in Hi.
      cbn [length] in Hi. lia. }
    rewrite lookup_app_r in Hi by lia.
    replace (length ss - length ss)%nat with 0%nat in Hi by lia.
    injection Hi as ->.
    rewrite firstn_app, firstn_all, Nat.sub_diag. cbn [firstn].
    rewrite app_nil_r.
    rewrite lookup_app_r by (rewrite run_loop_future_values_length; lia).
    rewrite run_loop_future_values_length.
    replace (length (future_values st) + length ss
             - (length (future_values st) + length ss))%nat
      with 0%nat by lia.
    done.
Qed.

Lemma steps_lookup horizon i :
  (i < Z.to_nat horizon)%nat -> steps horizon !! i = Some (Z.of_nat (S i)).
Proof.
  intros H. unfold steps. rewrite list_lookup_fmap.
  rewrite lookup_seq_lt by done. done.
Qed.

Lemma make_context_last_date df_p c :
  make_context df_p = Some c -> last_date c = date_max df_p.
Proof.
  unfold make_context.
  destruct (_compute_trend _ _) as [[a b]|]; [|done].
  by intros [= <-].
Qed.

Lemma forecast_product_returns df pid horizon :
  let df_p := select_product df pid in
  let qty := map quantity_sold df_p in
  (30 <= length df_p)%nat ->
  exists c,
    make_context df_p = Some c /\
    forecast_product df pid horizon
    = Forecast pid
        (future_values (run_loop c (initial_state qty) (steps horizon)))
        (map (fun r => (date r, quantity_sold r)) (last_n 120 df_p)).
Proof.
  intros df_p qty Hlen.
  destruct (make_context_some df_p ltac:(lia)) as [c Hc].
  exists c. split; [done|].
  unfold forecast_product. fold df_p.
  destruct (Nat.eqb_spec (length df_p) 0); [lia|].
  destruct (Nat.ltb_spec (length df_p) 30); [lia|].
  by rewrite Hc.
Qed.

End WindowFacts.

Module PredictorSpec.

Import Predictor.

(** C7.  In the loop of [forecast_product], each step computes its floored
    fused prediction from the working window as it stands before the
    step, the level component being the mean of the last 7 entries of
    that window (of all of them while it holds fewer); the prediction is
    appended, and the oldest entry is then dropped when the window has
    come to hold more than 30.  So before and after every step the
    window holds at most 30 entries and is the last 30 of the seed
    followed by the predictions made so far; between the append and the
    drop it holds at most 31. *)
Theorem working_window_fifo_capped :
  forall (c : context) (qty : list Q) (horizon : Z) (k : nat) (step : Z),
    let st := state_after c qty horizon k in
    let w := window_values st in
    let y_hat :=
      py_max 0 (w_level * np_mean (last_n (Nat.min 7 (length w)) w)
                + w_trend * trend_component c step
                + w_season * season_component c step) in
    let st' := forecast_step c st step in
    future_values st' = future_values st ++ [y_hat]
    /\ window_values st'
       = (if (30 <? length (append_window w y_hat))%nat
          then tl (append_window w y_hat)
          else append_window w y_hat)
    /\ window_values st'
       = (if (length w <? 30)%nat then w ++ [y_hat] else tl w ++ [y_hat])
    /\ (length w <= 30)%nat
    /\ (length (window_values st') <= 30)%nat
    /\ (length (append_window w y_hat) <= 31)%nat
    /\ w = last_n 30 (last_n 30 qty ++ future_values st)
    /\ level_component w = np_mean (last_n (Nat.min 7 (length w)) w).
Proof.
  intros c qty horizon k step st w y_hat st'.
  assert (Hle : (length w <= 30)%nat).
  { apply run_loop_window_le, initial_window_le. }
  assert (Hy : py_max 0 (fused c w step) = y_hat).
  { unfold y_hat, fused. by rewrite level_component_mean. }
  assert (Hw : window_values st' = update_window w y_hat).
  { unfold st'. cbn [forecast_step window_values]. fold w. by rewrite Hy. }
  split; [|split; [|split; [|split; [|split; [|split; [|split]]]]]].
  - unfold st'. cbn [forecast_step future_values]. fold w. by rewrite Hy.
  - rewrite Hw. apply update_window_append.
  - rewrite Hw. apply update_window_fifo.
  - exact Hle.
  - rewrite Hw, update_window_length.
    destruct (Nat.leb_spec 30 (length w)); lia.
  - unfold append_window. rewrite length_app. cbn [length]. lia.
  - apply state_after_window_contents.
  - apply level_component_mean.
Qed.

(** With 35 days of history the window holds 30 entries when step 1
    starts; once line 108 has appended the prediction it holds 31, and
    30 again only after line 110. *)
Lemma working_window_holds_31_after_append :
  exists c,
    make_context (select_product Samples.flat35 "P1") = Some c /\
    let qty := map quantity_sold (select_product Samples.flat35 "P1") in
    let st := state_after c qty 5 0 in
    let y_hat := py_max 0 (fused c (window_values st) 1) in
    length (window_values st) = 30%nat
    /\ length (append_window (window_values st) y_hat) = 31%nat
    /\ ~ (length (append_window (window_values st) y_hat) <= 30)%nat
    /\ length (window_values (forecast_step c st 1)) = 30%nat.
Proof.
  eexists. split; [reflexivity|].
  split; [|split; [|split]]; vm_compute; try reflexivity. lia.
Qed.

(** C10.  When [forecast_product] returns a forecast, the history has at
    least 30 rows, and at every point of the loop the working window
    holds exactly 30 entries; the level component is then always the
    mean of the last 7 of them, never the short-window average. *)
Theorem serving_window_always_30 :
  forall (df : list row) (pid : string) (horizon : Z)
         (forecast : list Q) (history : list (Z * Q)),
    forecast_product df pid horizon = Forecast pid forecast history ->
    let df_p := select_product df pid in
    let qty := map quantity_sold df_p in
    (30 <= length df_p)%nat /\
    exists c,
      make_context df_p = Some c /\
      forecast = future_values (state_after c qty horizon (Z.to_nat horizon)) /\
      forall k,
        let st := state_after c qty horizon k in
        length (window_values st) = 30%nat /\
        level_component (window_values st)
        = np_mean (last_n 7 (window_values st)).
Proof.
  intros df pid horizon forecast history H df_p qty.
  unfold forecast_product in H. fold df_p in H.
  destruct (Nat.eqb_spec (length df_p) 0) as [|Hne]; [done|].
  destruct (Nat.ltb_spec (length df_p) 30) as [|Hlen]; [done|].
  split; [done|].
  destruct (make_context df_p) as [c|]; [|done].
  exists c. split; [done|]. split.
  - injection H as <- _. unfold state_after.
    rewrite firstn_all2; [done|]. by rewrite steps_length.
  - intros k st.
    assert (H30 : length (window_values st) = 30%nat).
    { apply run_loop_window_30, initial_window_30.
      unfold qty. by rewrite length_map. }
    split; [done|]. unfold level_component. by rewrite H30.
Qed.

(** C8.  For a history of at least 30 rows, [forecast_product] returns a
    forecast for every horizon; it holds exactly [horizon] values (none
    for horizon 0, or a negative one), and the value at position [i] is
    the one computed for the date [last_date + (i + 1)], so the values
    are in increasing date order. *)
Theorem forecast_has_horizon_points :
  forall (df : list row) (pid : string) (horizon : Z),
    let df_p := select_product df pid in
    let qty := map quantity_sold df_p in
    (30 <= length df_p)%nat ->
    exists c,
      make_context df_p = Some c /\
      let st := run_loop c (initial_state qty) (steps horizon) in
      forecast_product df pid horizon
      = Forecast pid (future_values st)
          (map (fun r => (date r, quantity_sold r)) (last_n 120 df_p)) /\
      length (future_values st) = Z.to_nat horizon /\
      (horizon = 0%Z -> future_values st = []) /\
      future_dates st
      = map (fun i => (date_max df_p + Z.of_nat i)%Z)
            (seq 1 (Z.to_nat horizon)) /\
      (forall i, (i < Z.to_nat horizon)%nat ->
         exists y d,
           future_values st !! i = Some y /\
           future_dates st !! i = Some d /\
           d = (date_max df_p + Z.of_nat (S i))%Z /\
           y = py_max 0 (fused c (window_values (state_after c qty horizon i))
                           (Z.of_nat (S i)))).
Proof.
  intros df pid horizon df_p qty Hlen.
  destruct (forecast_product_returns df pid horizon Hlen) as (c & Hc & Hret).
  exists c. split; [done|]. intros st.
  assert (Hn : length (future_values st) = Z.to_nat horizon).
  { unfold st. rewrite run_loop_future_values_length, steps_length. done. }
  assert (Hd : future_dates st
               = map (fun i => (date_max df_p + Z.of_nat i)%Z)
                   (seq 1 (Z.to_nat horizon))).
  { unfold st. rewrite run_loop_future_dates. cbn [initial_state future_dates app].
    unfold steps. rewrite map_map.
    by rewrite (make_context_last_date _ _ Hc). }
  repeat split.
  - exact Hret.
  - done.
  - intros ->. by destruct (future_values st).
  - done.
  - intros i Hi. eexists _, _. split; [|split; [|split; [reflexivity|]]].
    + pose proof (run_loop_future_values_lookup c (steps horizon)
                    (initial_state qty) i _ (steps_lookup horizon i Hi)) as H.
      exact H.
    + rewrite Hd, list_lookup_fmap, lookup_seq_lt by done. done.
    + done.
Qed.

End PredictorSpec.

Section MatpfnFacts.

Import Matpfn.
Variable np_sqrt : Q -> Q.



Lemma simple_forecast_degraded pdf horizon last_row :
  let df := sort_values fst (dropna_date pdf) in
  (length df < 5)%nat -> last df = Some last_row ->
  simple_forecast np_sqrt pdf horizon
  = Returned (replicate (Z.to_nat horizon) (py_int last_row.2)).
Proof.
  intros df Hlen Hlast. unfold simple_forecast. fold df.
  destruct (Nat.eqb_spec (length pdf) 0) as [Hz|_].
  - destruct pdf; [|done]. done.
  - destruct (Nat.ltb_spec (length df) 5); [|lia]. by rewrite Hlast.
Qed.

Lemma simple_forecast_main pdf horizon :
  let df := sort_values fst (dropna_date pdf) in
  (5 <= length df)%nat ->
  exists last_row,
    last df = Some last_row /\
    simple_forecast np_sqrt pdf horizon
    = Returned (map (forecast_val (make_context np_sqrt df last_row))
                  (steps horizon)).
Proof.
  intros df Hlen. unfold simple_forecast. fold df.
  destruct (Nat.eqb_spec (length pdf) 0) as [Hz|_].
  - destruct pdf; [|done]. cbn in Hlen. lia.
  - destruct (Nat.ltb_spec (length df) 5); [lia|].
    destruct (last df) as [last_row|] eqn:E.
    + by exists last_row.
    + apply last_None in E. rewrite E in Hlen. cbn in Hlen. lia.
Qed.

End MatpfnFacts.

Lemma py_int_inject_Z (x : Q) (z : Z) : x == inject_Z z -> py_int x = z.
Proof.
  unfold Qeq, py_int. cbn [inject_Z Qnum Qden]. intros H.
  rewrite Z.mul_1_r in H. rewrite H. apply Z.quot_mul. done.
Qed.

Section NonNegativeFacts.

Lemma run_loop_future_values_nonneg c ss : forall st,
  Forall (fun y => 0 <= y) (Predictor.future_values st) ->
  Forall (fun y => 0 <= y)
    (Predictor.future_values (Predictor.run_loop c st ss)).
Proof.
  induction ss as [|s ss IH]; intros st H; [done|].
  cbn [Predictor.run_loop fold_left]. apply IH.
  cbn [Predictor.forecast_step Predictor.future_values].
  apply Forall_app. split; [done|].
  constructor; [apply py_max_lower | constructor].
Qed.

(** Whatever the frame, [forecast_product] never returns a negative
    quantity. *)
Lemma forecast_product_nonneg df pid horizon forecast history :
  Predictor.forecast_product df pid horizon
  = Predictor.Forecast pid forecast history ->
  Forall (fun y => 0 <= y) forecast.
Proof.
  unfold Predictor.forecast_product.
  destruct (_ =? _)%nat; [done|]. destruct (_ <? _)%nat; [done|].
  destruct (Predictor.make_context _) as [c|]; [|done].
  intros [= <- _]. apply run_loop_future_values_nonneg. constructor.
Qed.

(** Past the five-row test, [simple_forecast] never returns a negative
    quantity. *)
Lemma simple_forecast_main_nonneg np_sqrt pdf horizon l :
  (5 <= length (sort_values fst (Matpfn.dropna_date pdf)))%nat ->
  Matpfn.simple_forecast np_sqrt pdf horizon = Matpfn.Returned l ->
  Forall (fun z => (0 <= z)%Z) l.
Proof.
  intros Hlen H.
  destruct (simple_forecast_main np_sqrt pdf horizon Hlen) as (r & _ & E).
  rewrite E in H. injection H as <-.
  apply Forall_fmap, Forall_true. intros i. cbn.
  unfold Matpfn.forecast_val. lia.
Qed.

End NonNegativeFacts.

Module MatpfnSpec.

Import Matpfn.

(** C2.  The floor is missing on the constant-repeat path of
    [simple_forecast]: for a single observation of -3 and horizon 2 the
    call returns two negative quantities. *)
Theorem degraded_path_keeps_negative_last :
  forall np_sqrt : Q -> Q,
    simple_forecast np_sqrt Samples.one_return 2
    = Returned [(-3)%Z; (-3)%Z].
Proof. intros np_sqrt. reflexivity. Qed.

(** C5.  With between one and four dated rows, [simple_forecast] returns
    the quantity of the latest row, truncated toward zero to an integer,
    repeated [horizon] times; the truncation changes nothing when that
    quantity is a whole number. *)
Theorem degraded_repeats_truncated_last :
  forall (np_sqrt : Q -> Q) (pdf : list row) (horizon : Z)
         (last_row : Z * Q),
    let df := sort_values fst (dropna_date pdf) in
    (length df < 5)%nat ->
    last df = Some last_row ->
    simple_forecast np_sqrt pdf horizon
    = Returned (replicate (Z.to_nat horizon) (py_int last_row.2))
    /\ (forall z : Z, last_row.2 == inject_Z z -> py_int last_row.2 = z).
Proof.
  intros np_sqrt pdf horizon last_row df Hlen Hlast. split.
  - by apply simple_forecast_degraded.
  - intros z. apply py_int_inject_Z.
Qed.

(** Three observations ending in 7, horizon 4. *)
Lemma degraded_repeats_truncated_last_witness :
  simple_forecast Samples.sqrt_approx Samples.short3 4
  = Returned (replicate 4 (py_int 7))
  /\ (forall z : Z, 7 == inject_Z z -> py_int 7 = z).
Proof.
  apply (degraded_repeats_truncated_last Samples.sqrt_approx Samples.short3
           4 ((Samples.day0 + 2)%Z, 7)).
  - vm_compute. lia.
  - reflexivity.
Defined.

Example degraded_three_obs_last_7 :
  simple_forecast Samples.sqrt_approx Samples.short3 4
  = Returned [7; 7; 7; 7]%Z.
Proof. reflexivity. Qed.

(** A last observation of 7.5 is not repeated as such: the call returns
    7, four times. *)
Lemma degraded_truncates_fraction :
  exists last_row,
    last (sort_values fst (dropna_date Samples.short3_half)) = Some last_row
    /\ last_row.2 = 15 # 2
    /\ simple_forecast Samples.sqrt_approx Samples.short3_half 4
       = Returned [7; 7; 7; 7]%Z
    /\ ~ Forall (fun z => inject_Z z == last_row.2) [7; 7; 7; 7]%Z.
Proof.
  eexists. split; [reflexivity|]. split; [reflexivity|].
  split; [reflexivity|].
  intros H. apply Forall_cons in H as [H _]. vm_compute in H. discriminate.
Qed.

End MatpfnSpec.

Section DegenerateFacts.

Import Matpfn.

Lemma all_same_equal_dates (df : list (Z * Q)) (d m : Z) :
  Forall (fun r => r.1 = d) df ->
  all_same (map (fun r => inject_Z (r.1 - m)) df) = true.
Proof.
  intros H. destruct df as [|r0 df]; [done|].
  change (forallb (fun x => Qeq_bool x (inject_Z (r0.1 - m)))
            (map (fun r => inject_Z (r.1 - m)) (r0 :: df)) = true).
  apply forallb_forall. intros x Hx.
  apply in_map_iff in Hx as (r & <- & Hr).
  apply Qeq_bool_iff.
  rewrite List.Forall_forall in H.
  rewrite (H r Hr), (H r0 (or_introl eq_refl)). reflexivity.
Qed.

End DegenerateFacts.

Module EngineSpec.




(** C9.  [_compute_trend] on a single value returns slope 0 and that
    value as level, not an exception.  In [simple_forecast], when every
    row carries the same date the slope is 0 and the intercept the mean
    of the quantities, so the trend prediction is that mean at every
    step; and with five dated rows or more the call always returns
    [horizon] values. *)
Theorem degenerate_fit_is_flat :
  (forall (v : Q) (max_window : nat),
     Predictor._compute_trend [v] max_window = Some (0, v))
  /\ (forall (np_sqrt : Q -> Q) (df : list (Z * Q)) (last_row : Z * Q)
             (d : Z),
        Forall (fun r => r.1 = d) df ->
        let c := Matpfn.make_context np_sqrt df last_row in
        Matpfn.trend_slope c = 0
        /\ Matpfn.trend_intercept c = np_mean (map snd df)
        /\ forall i, Matpfn.trend_pred c i == np_mean (map snd df))
  /\ (forall (np_sqrt : Q -> Q) (pdf : list Matpfn.row) (horizon : Z),
        (5 <= length (sort_values fst (Matpfn.dropna_date pdf)))%nat ->
        exists l,
          Matpfn.simple_forecast np_sqrt pdf horizon = Matpfn.Returned l
          /\ length l = Z.to_nat horizon).
Proof.
  split; [done|]. split.
  - intros np_sqrt df last_row d Hd c.
    assert (Hfit : Matpfn.fit_trend
                     (map (fun r => inject_Z (r.1 - Matpfn.date_min df)) df)
                     (map snd df)
                   = (0, np_mean (map snd df))).
    { unfold Matpfn.fit_trend. by rewrite (all_same_equal_dates df d). }
    subst c. unfold Matpfn.make_context. rewrite Hfit.
    cbn [Matpfn.trend_slope Matpfn.trend_intercept].
    repeat split. intros i. unfold Matpfn.trend_pred.
    cbn [Matpfn.trend_slope Matpfn.trend_intercept]. ring.
  - intros np_sqrt pdf horizon Hlen.
    destruct (simple_forecast_main np_sqrt pdf horizon Hlen) as (r & _ & E).
    eexists. split; [exact E|]. by rewrite length_map, steps_length.
Qed.

(** Six rows of one day: slope 0, intercept their mean 5. *)
Lemma degenerate_fit_is_flat_witness :
  let df := sort_values fst (Matpfn.dropna_date Samples.same_day6) in
  let c := Matpfn.make_context Samples.sqrt_approx df (Samples.day0, 7) in
  (Matpfn.trend_slope c = 0
   /\ Matpfn.trend_intercept c = np_mean (map snd df)
   /\ forall i, Matpfn.trend_pred c i == np_mean (map snd df))
  /\ exists l,
       Matpfn.simple_forecast Samples.sqrt_approx Samples.same_day6 3
       = Matpfn.Returned l
       /\ length l = Z.to_nat 3.
Proof.
  destruct degenerate_fit_is_flat as (_ & H2 & H3).
  split.
  - apply (H2 Samples.sqrt_approx _ _ Samples.day0).
    vm_compute. repeat constructor.
  - apply H3. vm_compute. lia.
Defined.

End EngineSpec.

Section GroupbyFacts.

Lemma groupby_snoc kvs kv :
  groupby (kvs ++ [kv])
  = <[kv.1 := default [] (groupby kvs !! kv.1) ++ [kv.2]]> (groupby kvs).
Proof. unfold groupby. by rewrite fold_left_app. Qed.

(** A key's group holds the values of that key, in row order; keys
    without a row have no entry. *)
Lemma groupby_lookup kvs k :
  groupby kvs !! k
  = match filter (fun kv => kv.1 = k) kvs with
    | [] => None
    | g => Some (map snd g)
    end.
Proof.
  induction kvs as [|kv kvs IH] using rev_ind; [done|].
  rewrite groupby_snoc, filter_app.
  destruct (decide (kv.1 = k)) as [<-|Hne].
  - rewrite lookup_insert_eq, IH.
    rewrite (filter_cons_True _ kv []) by done. rewrite filter_nil.
    destruct (filter _ kvs) as [|g0 g]; [done|].
    simpl. by rewrite map_app.
  - rewrite lookup_insert_ne by done. rewrite IH.
    rewrite (filter_cons_False _ kv []) by done. rewrite filter_nil.
    by rewrite app_nil_r.
Qed.



End GroupbyFacts.

Section ConstantSeriesFacts.



Lemma arange_length w : length (arange w) = w.
Proof. unfold arange. by rewrite length_map, length_seq. Qed.

End ConstantSeriesFacts.

Section FlatContext.

Import Predictor.











End FlatContext.

Section RoundingFacts.





End RoundingFacts.

Section FlatFrame.

Import Matpfn.
Variable np_sqrt : Q -> Q.






End FlatFrame.

Module ConstantSpec.




End ConstantSpec.

Module PredictorWitnesses.

Import Predictor.

(** 35 days of history, horizon 5: five values come back. *)
Lemma forecast_has_horizon_points_witness :
  (30 <= length (select_product Samples.flat35 "P1"))%nat
  /\ exists forecast history,
       forecast_product Samples.flat35 "P1" 5
       = Forecast "P1" forecast history
       /\ length forecast = 5%nat.
Proof.
  assert (H : (30 <= length (select_product Samples.flat35 "P1"))%nat)
    by (vm_compute; lia).
  split; [exact H|].
  destruct (PredictorSpec.forecast_has_horizon_points
              Samples.flat35 "P1" 5 H) as (c & _ & E & Hn & _).
  eexists _, _. split; [exact E | exact Hn].
Defined.

(** 35 days of history, horizon 5: the window holds 30 entries after
    three steps. *)
Lemma serving_window_always_30_witness :
  exists c,
    make_context (select_product Samples.flat35 "P1") = Some c
    /\ length (window_values
                 (state_after c
                    (map quantity_sold (select_product Samples.flat35 "P1"))
                    5 3)) = 30%nat.
Proof.
  destruct (PredictorSpec.serving_window_always_30
              Samples.flat35 "P1" 5 _ _ eq_refl) as (_ & c & Hc & _ & Hk).
  exists c. split; [exact Hc|]. exact (proj1 (Hk 3%nat)).
Defined.

End PredictorWitnesses.

Section LeastSquares.

Implicit Types (ps : list (Q * Q)) (xs ys : list Q).

Local Ltac sum_nil :=
  unfold Qsum, Qlen; cbn [map length fold_right];
  change (inject_Z (Z.of_nat 0)) with 0; ring.

Lemma Qsquare_nonneg (x : Q) : 0 <= x * x.
Proof.
  destruct (Qlt_le_dec x 0) as [H|H].
  - assert (E : x * x == (- x) * (- x)) by ring.
    rewrite E. apply Qmult_le_0_compat; lra.
  - by apply Qmult_le_0_compat.
Qed.

Lemma Qsquare_pos (x : Q) : ~ x == 0 -> 0 < x * x.
Proof.
  intros H. destruct (Qlt_le_dec x 0) as [Hx|Hx].
  - assert (E : x * x == (- x) * (- x)) by ring.
    rewrite E. apply Qmult_lt_0_compat; lra.
  - apply Qmult_lt_0_compat; apply Qle_lteq in Hx as [Hx|Hx];
      try done; exfalso; apply H; by symmetry.
Qed.

Lemma Qsum_cons x l : Qsum (x :: l) = x + Qsum l.
Proof. done. Qed.

Lemma Qlen_cons x l : Qlen (x :: l) == 1 + Qlen l.
Proof.
  unfold Qlen. cbn [length]. rewrite Nat2Z.inj_succ, <- Z.add_1_l.
  by rewrite inject_Z_plus.
Qed.

Lemma Qsum_map_nonneg {A : Type} (f : A -> Q) (l : list A) :
  (forall x, 0 <= f x) -> 0 <= Qsum (map f l).
Proof.
  intros H. induction l as [|x l IH]; [cbn; lra|].
  cbn [map]. rewrite Qsum_cons. specialize (H x). lra.
Qed.

Lemma Qsum_map_ge_elem {A : Type} (f : A -> Q) (l : list A) (x : A) :
  (forall y, 0 <= f y) -> In x l -> f x <= Qsum (map f l).
Proof.
  intros H. induction l as [|y l IH]; [done|].
  cbn [map]. rewrite Qsum_cons. intros [->|Hin].
  - pose proof (Qsum_map_nonneg f l H). lra.
  - specialize (IH Hin). specialize (H y). lra.
Qed.

Lemma combine_self_dot xs :
  Qdot xs xs == Qsum (map (fun x => x * x) xs).
Proof.
  unfold Qdot. induction xs as [|x xs IH]; [reflexivity|].
  cbn [combine map fst snd]. rewrite !Qsum_cons, IH. reflexivity.
Qed.

(** [n * (n * Sxx - Sx^2)] is a sum of squares. *)
Lemma spread_sum_squares xs (n s : Q) :
  Qsum (map (fun x => (n * x - s) * (n * x - s)) xs)
  == n * n * Qsum (map (fun x => x * x) xs)
     - 2 * n * s * Qsum xs + Qlen xs * s * s.
Proof.
  induction xs as [|x xs IH].
  - sum_nil.
  - cbn [map]. rewrite !Qsum_cons, IH, Qlen_cons. ring.
Qed.

Lemma spread_pos xs x1 x2 :
  In x1 xs -> In x2 xs -> ~ x1 == x2 ->
  0 < Qlen xs * Qdot xs xs - Qsum xs * Qsum xs.
Proof.
  intros H1 H2 Hne.
  assert (Hn : 0 < Qlen xs) by (apply Qlen_pos; by destruct xs).
  set (n := Qlen xs) in *. set (s := Qsum xs).
  set (f := fun x => (n * x - s) * (n * x - s)).
  assert (Hf : forall y, 0 <= f y) by (intros y; apply Qsquare_nonneg).
  assert (Hsum : Qsum (map f xs) == n * (n * Qdot xs xs - s * s)).
  { unfold f. rewrite spread_sum_squares, combine_self_dot.
    fold n. fold s. ring. }
  assert (Hpos : 0 < Qsum (map f xs)).
  { destruct (Qeq_dec (n * x1) s) as [E1|E1].
    - apply Qlt_le_trans with (f x2); [|by apply Qsum_map_ge_elem].
      unfold f.
      assert (~ n * x2 - s == 0).
      { intros E2. apply Hne.
        assert (n * x1 == n * x2) by lra.
        apply (Qmult_inj_l x1 x2 n); lra. }
      by apply Qsquare_pos.
    - apply Qlt_le_trans with (f x1); [|by apply Qsum_map_ge_elem].
      unfold f. assert (~ n * x1 - s == 0) by lra. by apply Qsquare_pos. }
  rewrite Hsum in Hpos.
  destruct (Qlt_le_dec 0 (n * Qdot xs xs - s * s)) as [|Hle]; [done|].
  exfalso. apply (Qlt_not_le _ _ Hpos).
  assert (E : n * (n * Qdot xs xs - s * s)
              == - (n * - (n * Qdot xs xs - s * s))) by ring.
  rewrite E.
  assert (0 <= n * - (n * Qdot xs xs - s * s))
    by (apply Qmult_le_0_compat; lra).
  lra.
Qed.

Lemma residual_sums ps a b :
  Qsum (map (fun p => p.2 - (a * p.1 + b)) ps)
  == Qsum (map snd ps) - a * Qsum (map fst ps)
     - inject_Z (Z.of_nat (length ps)) * b
  /\ Qsum (map (fun p => (p.2 - (a * p.1 + b)) * p.1) ps)
     == Qsum (map (fun p => p.1 * p.2) ps)
        - a * Qsum (map (fun p => p.1 * p.1) ps)
        - b * Qsum (map fst ps).
Proof.
  induction ps as [|p ps [IH1 IH2]].
  - split; sum_nil.
  - cbn [map length]. rewrite !Qsum_cons, IH1, IH2.
    rewrite Nat2Z.inj_succ, <- Z.add_1_l, inject_Z_plus.
    split; ring.
Qed.

Lemma sse_shift ps a b a' b' :
  Qsum (map (fun p => (p.2 - (a' * p.1 + b')) * (p.2 - (a' * p.1 + b'))) ps)
  == Qsum (map (fun p => (p.2 - (a * p.1 + b)) * (p.2 - (a * p.1 + b))) ps)
     + Qsum (map (fun p => ((a - a') * p.1 + (b - b'))
                           * ((a - a') * p.1 + (b - b'))) ps)
     + 2 * (a - a') * Qsum (map (fun p => (p.2 - (a * p.1 + b)) * p.1) ps)
     + 2 * (b - b') * Qsum (map (fun p => p.2 - (a * p.1 + b)) ps).
Proof.
  induction ps as [|p ps IH].
  - sum_nil.
  - cbn [map]. rewrite !Qsum_cons, IH. ring.
Qed.

Lemma combine_fst xs : forall ys,
  length xs = length ys -> map fst (combine xs ys) = xs.
Proof.
  induction xs as [|x xs IH]; intros [|y ys] H; try done.
  cbn [combine map fst]. rewrite IH; [done|]. cbn in H. congruence.
Qed.

Lemma combine_snd xs : forall ys,
  length xs = length ys -> map snd (combine xs ys) = ys.
Proof.
  induction xs as [|x xs IH]; intros [|y ys] H; try done.
  cbn [combine map snd]. rewrite IH; [done|]. cbn in H. congruence.
Qed.

Lemma combine_sq xs : forall ys,
  length xs = length ys ->
  Qsum (map (fun p => p.1 * p.1) (combine xs ys))
  == Qsum (map (fun x => x * x) xs).
Proof.
  induction xs as [|x xs IH]; intros [|y ys] H; try done.
  cbn [combine map fst]. rewrite !Qsum_cons, IH; [done|].
  cbn in H. congruence.
Qed.

(** The closed form of [polyfit1] satisfies the normal equations, hence
    minimises the sum of squared residuals. *)
Lemma polyfit1_least_squares xs ys x1 x2 :
  length xs = length ys ->
  In x1 xs -> In x2 xs -> ~ x1 == x2 ->
  forall a' b',
    sse xs ys (polyfit1 xs ys).1 (polyfit1 xs ys).2 <= sse xs ys a' b'.
Proof.
  intros Hlen H1 H2 Hne a' b'.
  pose proof (spread_pos xs x1 x2 H1 H2 Hne) as HD.
  assert (Hn : 0 < Qlen xs) by (apply Qlen_pos; by destruct xs).
  unfold sse.
  rewrite (sse_shift (combine xs ys) (polyfit1 xs ys).1 (polyfit1 xs ys).2
             a' b').
  destruct (residual_sums (combine xs ys) (polyfit1 xs ys).1
              (polyfit1 xs ys).2) as [R1 R2].
  rewrite length_combine, <- Hlen, Nat.min_id in R1.
  rewrite (combine_fst xs ys Hlen), (combine_snd xs ys Hlen) in R1.
  rewrite (combine_fst xs ys Hlen), (combine_sq xs ys Hlen) in R2.
  rewrite <- combine_self_dot in R2.
  change (Qsum (map (fun p => p.1 * p.2) (combine xs ys)))
    with (Qdot xs ys) in R2.
  change (inject_Z (Z.of_nat (length xs))) with (Qlen xs) in R1.
  assert (E1 : Qsum (map (fun p => p.2 - ((polyfit1 xs ys).1 * p.1
                                         + (polyfit1 xs ys).2))
                       (combine xs ys)) == 0).
  { rewrite R1. unfold polyfit1. cbn [fst snd]. field. lra. }
  assert (E2 : Qsum (map (fun p => (p.2 - ((polyfit1 xs ys).1 * p.1
                                          + (polyfit1 xs ys).2)) * p.1)
                       (combine xs ys)) == 0).
  { rewrite R2. unfold polyfit1. cbn [fst snd]. field. lra. }
  rewrite E1, E2.
  pose proof (Qsum_map_nonneg
                (fun p : Q * Q =>
                   (((polyfit1 xs ys).1 - a') * p.1 + ((polyfit1 xs ys).2 - b'))
                   * (((polyfit1 xs ys).1 - a') * p.1 + ((polyfit1 xs ys).2 - b')))
                (combine xs ys)) as Hsq.
  specialize (Hsq ltac:(intros p; apply Qsquare_nonneg)). lra.
Qed.

End LeastSquares.

Section TrendFacts.

Lemma arange_has_0_1 w :
  (2 <= w)%nat -> In 0 (arange w) /\ In 1 (arange w).
Proof.
  intros H. unfold arange. split.
  - change 0 with (inject_Z (Z.of_nat 0)).
    apply (in_map (fun i => inject_Z (Z.of_nat i))), in_seq. lia.
  - change 1 with (inject_Z (Z.of_nat 1)).
    apply (in_map (fun i => inject_Z (Z.of_nat i))), in_seq. lia.
Qed.

End TrendFacts.

Module TrendSpec.

Import Predictor.

(** C6.  For a history of at least 2 rows, [forecast_product] fits the
    trend once, before the loop: over the last [w = min(len, 90)]
    quantities at indices [0..w-1], slope [a] and intercept [b] minimise
    the sum of squared residuals; the context keeps the slope and the
    fitted value at index [w-1]; and the trend component of step [s] is
    that fitted value plus [a * s], for every [s], from the same
    context. *)
Theorem trend_extrapolates_fitted_line :
  forall (df_p : list row),
    (2 <= length df_p)%nat ->
    let values := map quantity_sold df_p in
    let w := Nat.min (length values) 90 in
    let xs := arange w in
    let ys := last_n w values in
    let a := (polyfit1 xs ys).1 in
    let b := (polyfit1 xs ys).2 in
    let last_index := inject_Z (Z.of_nat w) - 1 in
    (forall a' b', sse xs ys a b <= sse xs ys a' b')
    /\ _compute_trend values 90 = Some (a, b + a * last_index)
    /\ exists c,
         make_context df_p = Some c
         /\ slope c = a
         /\ last_trend_level c == line a b last_index
         /\ forall step : Z,
              trend_component c step
              == line a b last_index + a * inject_Z step.
Proof.
  intros df_p Hlen values w xs ys a b last_index.
  assert (Hv : (2 <= length values)%nat) by (unfold values; by rewrite length_map).
  split; [|split].
  - destruct (arange_has_0_1 w ltac:(lia)) as [H0 H1].
    apply (polyfit1_least_squares xs ys 0 1); try done.
    unfold xs, ys. rewrite arange_length, last_n_length. lia.
  - apply (compute_trend_fits values Hv).
  - unfold make_context. fold values.
    rewrite (compute_trend_fits values Hv). fold w xs ys.
    change (polyfit1 xs ys).1 with a. change (polyfit1 xs ys).2 with b.
    fold last_index. eexists. split; [reflexivity|].
    cbn [slope last_trend_level]. split; [done|].
    unfold trend_component, line. cbn [slope last_trend_level].
    split; [ring | intros step; ring].
Qed.

(** The 35-day sample has a context. *)
Lemma trend_extrapolates_fitted_line_witness :
  exists c,
    make_context (select_product Samples.flat35 "P1") = Some c
    /\ forall step : Z,
         trend_component c step
         == last_trend_level c + slope c * inject_Z step.
Proof.
  destruct (trend_extrapolates_fitted_line
              (select_product Samples.flat35 "P1"))
    as (_ & _ & c & Hc & _).
  - vm_compute. lia.
  - exists c. split; [exact Hc|]. intros step. reflexivity.
Defined.

End TrendSpec.

Section ClipFacts.

Import Matpfn.

Lemma clip_in_band c x :
  0 < vol c ->
  global_mean c - 3 * vol c <= clip c x <= global_mean c + 3 * vol c.
Proof.
  intros Hv. unfold clip.
  destruct (Qltb 0 (vol c)) eqn:E; [|apply Qltb_false in E; lra].
  destruct (py_min_cases (global_mean c + 3 * vol c) x) as [[H1 ->]|[H1 ->]];
    match goal with
    | |- context [py_max ?l ?m] =>
        destruct (py_max_cases l m) as [[H2 ->]|[H2 ->]]
    end; lra.
Qed.

Lemma make_context_mean_vol np_sqrt df last_row :
  (5 <= length df)%nat ->
  global_mean (make_context np_sqrt df last_row) = np_mean (map snd df)
  /\ vol (make_context np_sqrt df last_row)
     = series_std np_sqrt (map snd df).
Proof.
  intros Hlen. unfold make_context. destruct (fit_trend _ _) as [a b].
  cbn [global_mean vol]. split; [done|].
  by destruct (Nat.ltb_spec 1 (length df)); [|lia].
Qed.

End ClipFacts.

Module ClampSpec.

(** C1, as the code has it.  In [simple_forecast], on a frame of at
    least 5 dated rows, the value of step [i] is the fused value, clipped,
    rounded and floored; the mean and the volatility used by the clip are
    the mean and the standard deviation of all the quantities; and when
    that volatility is positive the clipped value lies between the mean
    minus and plus three times it.  ([forecast_product] has no such
    clip.) *)
Theorem clip_within_three_sigma :
  forall (np_sqrt : Q -> Q) (pdf : list Matpfn.row) (horizon : Z),
    let df := sort_values fst (Matpfn.dropna_date pdf) in
    (5 <= length df)%nat ->
    exists last_row,
      last df = Some last_row /\
      let c := Matpfn.make_context np_sqrt df last_row in
      Matpfn.simple_forecast np_sqrt pdf horizon
      = Matpfn.Returned
          (map (fun i => Z.max 0 (py_round (Matpfn.clip c (Matpfn.fused c i))))
             (steps horizon))
      /\ Matpfn.global_mean c = np_mean (map snd df)
      /\ Matpfn.vol c = np_sqrt (Matpfn.sample_var (map snd df))
      /\ (0 < Matpfn.vol c ->
          forall i : Z,
            Matpfn.global_mean c - 3 * Matpfn.vol c
            <= Matpfn.clip c (Matpfn.fused c i)
            <= Matpfn.global_mean c + 3 * Matpfn.vol c).
Proof.
  intros np_sqrt pdf horizon df Hlen.
  destruct (simple_forecast_main np_sqrt pdf horizon Hlen)
    as (last_row & Hlast & E).
  exists last_row. split; [done|]. intros c.
  destruct (make_context_mean_vol np_sqrt df last_row Hlen) as [Hm Hv].
  split; [exact E|]. split; [exact Hm|]. split; [exact Hv|].
  intros Hpos i. by apply clip_in_band.
Qed.

(** Ten days rising by 2 a day: the volatility is positive and the
    clipped value of step 3 lies in the band. *)
Lemma clip_within_three_sigma_witness :
  let df := sort_values fst (Matpfn.dropna_date Samples.rising10) in
  exists last_row,
    last df = Some last_row /\
    let c := Matpfn.make_context Samples.sqrt_approx df last_row in
    0 < Matpfn.vol c
    /\ Matpfn.global_mean c - 3 * Matpfn.vol c
       <= Matpfn.clip c (Matpfn.fused c 3)
       <= Matpfn.global_mean c + 3 * Matpfn.vol c.
Proof.
  intros df.
  destruct (clip_within_three_sigma Samples.sqrt_approx Samples.rising10 3)
    as (last_row & Hlast & _ & _ & _ & Hband).
  - vm_compute. lia.
  - exists last_row. split; [exact Hlast|]. intros c.
    assert (Hpos : 0 < Matpfn.vol c).
    { subst c. vm_compute in Hlast. injection Hlast as <-. by vm_compute. }
    split; [exact Hpos|]. exact (Hband Hpos 3%Z).
Defined.

(** A year of history: 358 days without a sale, then a week of 100 a
    day.  The quantities have positive variance, and the first fused
    value of [forecast_product], which is also the value returned, lies
    more than three standard deviations above their mean. *)
Lemma serving_path_leaves_three_sigma :
  let df_p := Predictor.select_product Samples.spike365 "P1" in
  let qty := map Predictor.quantity_sold df_p in
  exists c y,
    Predictor.make_context df_p = Some c
    /\ y = Predictor.fused c
             (Predictor.window_values (Predictor.initial_state qty)) 1
    /\ (exists forecast history,
          Predictor.forecast_product Samples.spike365 "P1" 1
          = Predictor.Forecast "P1" forecast history
          /\ forecast = [py_max 0 y] /\ py_max 0 y = y)
    /\ 0 < Matpfn.sample_var qty
    /\ ~ within_three_sigma (np_mean qty) (Matpfn.sample_var qty) y
    /\ forall vol : Q,
         0 < vol -> vol * vol <= Matpfn.sample_var qty ->
         ~ (np_mean qty - 3 * vol <= y <= np_mean qty + 3 * vol).
Proof.
  intros df_p qty.
  eexists _, _. split; [vm_compute; reflexivity|]. split; [reflexivity|].
  match goal with
  | |- context [py_max 0 ?t] => set (y := t)
  end.
  assert (Ey : y == 543557 # 10413) by (vm_compute; reflexivity).
  assert (Em : np_mean qty == 140 # 73) by (vm_compute; reflexivity).
  assert (Ev : Matpfn.sample_var qty == 179000 # 949)
    by (vm_compute; reflexivity).
  split; [|split; [|split]].
  - eexists _, _. split; [vm_compute; reflexivity|].
    split; vm_compute; reflexivity.
  - rewrite Ev. reflexivity.
  - unfold within_three_sigma. rewrite Ey, Em, Ev.
    intros H. vm_compute in H. by apply H.
  - intros vol Hpos Hsq [_ Hhi]. rewrite Ey, Em in Hhi. rewrite Ev in Hsq.
    set (d := (543557 # 10413) - (140 # 73)) in *.
    assert (Hd : 0 <= 3 * vol - d) by (unfold d in *; lra).
    assert (Hs : 0 <= 3 * vol + d) by (unfold d in *; lra).
    pose proof (Qmult_le_0_compat _ _ Hd Hs) as Hprod.
    assert (E : (3 * vol - d) * (3 * vol + d) == 9 * (vol * vol) - d * d)
      by ring.
    rewrite E in Hprod.
    assert (Hdd : 9 * (179000 # 949) < d * d) by (vm_compute; reflexivity).
    lra.
Qed.

End ClampSpec.

Section SortFacts.

Context {A : Type} (key : A -> Z).

Lemma insert_by_perm r (l : list A) : insert_by key r l ≡ₚ r :: l.
Proof.
  induction l as [|r' l IH]; [done|]. cbn [insert_by].
  destruct (key r' <=? key r)%Z; [|done].
  rewrite IH. apply Permutation_swap.
Qed.

Lemma sort_values_acc_perm (l acc : list A) :
  fold_left (fun acc r => insert_by key r acc) l acc ≡ₚ l ++ acc.
Proof.
  revert acc. induction l as [|r l IH]; intros acc; [done|].
  cbn [fold_left]. rewrite IH, insert_by_perm.
  symmetry. apply Permutation_middle.
Qed.

Lemma sort_values_perm (l : list A) : sort_values key l ≡ₚ l.
Proof. unfold sort_values. by rewrite sort_values_acc_perm, app_nil_r. Qed.

Lemma insert_by_sorted r (l : list A) :
  StronglySorted (by_key key) l -> StronglySorted (by_key key) (insert_by key r l).
Proof.
  induction 1 as [|r' l Hl IH Hr']; cbn [insert_by].
  - repeat constructor.
  - destruct (Z.leb_spec (key r') (key r)) as [Hle|Hgt].
    + constructor; [done|].
      rewrite insert_by_perm. constructor; [done|exact Hr'].
    + constructor; [by constructor|].
      constructor; [unfold by_key; lia|].
      eapply Forall_impl; [exact Hr'|]. unfold by_key. intros; lia.
Qed.

Lemma sort_values_acc_sorted (l acc : list A) :
  StronglySorted (by_key key) acc ->
  StronglySorted (by_key key) (fold_left (fun acc r => insert_by key r acc) l acc).
Proof.
  revert acc. induction l as [|r l IH]; intros acc H; [done|].
  cbn [fold_left]. by apply IH, insert_by_sorted.
Qed.

Lemma sort_values_sorted (l : list A) :
  StronglySorted (by_key key) (sort_values key l).
Proof. apply sort_values_acc_sorted. constructor. Qed.

(** With pairwise distinct keys the sorted frame does not depend on the
    order of the rows. *)
Lemma sort_values_perm_invariant (l1 l2 : list A) :
  l1 ≡ₚ l2 -> NoDup (map key l1) ->
  sort_values key l1 = sort_values key l2.
Proof.
  intros Hp Hnd.
  apply (StronglySorted_unique_strong (by_key key));
    [|apply sort_values_sorted..|by rewrite !sort_values_perm].
  intros x1 x2 H1 H2 H12 H21. unfold by_key in *.
  rewrite sort_values_perm in H1. rewrite sort_values_perm, <- Hp in H2.
  assert (Hk : key x1 = key x2) by lia.
  clear H12 H21 Hp. induction l1 as [|a l1 IH]; [by apply elem_of_nil in H1|].
  cbn [map] in Hnd. apply NoDup_cons in Hnd as [Ha Hnd].
  apply elem_of_cons in H1 as [->|H1], H2 as [->|H2]; try done.
  - exfalso. apply Ha. rewrite Hk. apply list_elem_of_fmap. by exists x2.
  - exfalso. apply Ha. rewrite <- Hk. apply list_elem_of_fmap. by exists x1.
  - by apply IH.
Qed.

End SortFacts.

Section PredictorMore.

Import Predictor.

Lemma filter_fmap_key {A B : Type} (f : A -> B) (P : B -> Prop)
    `{forall y, Decision (P y)} (l : list A) :
  filter P (map f l) = map f (filter (fun x => P (f x)) l).
Proof.
  induction l as [|x l IH]; [done|]. cbn [map].
  rewrite !filter_cons. destruct (decide (P (f x))); cbn [map]; by rewrite IH.
Qed.

Lemma run_loop_future_values_extends c ss : forall st,
  exists ext,
    future_values (run_loop c st ss) = future_values st ++ ext
    /\ length ext = length ss.
Proof.
  induction ss as [|s ss IH]; intros st.
  - exists []. by rewrite app_nil_r.
  - cbn [run_loop fold_left]. destruct (IH (forecast_step c st s)) as (ext & E & L).
    cbn [forecast_step future_values] in E. rewrite <- app_assoc in E.
    eexists. split; [exact E|]. cbn [app length]. by rewrite L.
Qed.

Lemma steps_split (h h' : Z) :
  (h <= h')%Z -> exists rest, steps h' = steps h ++ rest.
Proof.
  intros Hle. unfold steps.
  replace (Z.to_nat h') with (Z.to_nat h + (Z.to_nat h' - Z.to_nat h))%nat by lia.
  rewrite seq_app, map_app. by eexists.
Qed.

Lemma last_n_app_ge {A : Type} (n : nat) (l1 l2 : list A) :
  (n <= length l2)%nat -> last_n n (l1 ++ l2) = last_n n l2.
Proof.
  intros H. unfold last_n. rewrite length_app, drop_app.
  replace (length l1 + length l2 - n - length l1)%nat
    with (length l2 - n)%nat by lia.
  rewrite drop_ge by lia. done.
Qed.

End PredictorMore.

Module PredictorMoreSpec.

Import Predictor.

(** X1.  [forecast_product] works on the rows of the requested product
    only, in non-decreasing date order: the selected frame is sorted by
    date, is a rearrangement of the product's rows, and holds a row
    exactly when the dataset holds it under that product id. *)
Theorem select_product_sorted_permutation :
  forall (df : list row) (pid : string),
    let df_p := select_product df pid in
    StronglySorted (by_key date) df_p
    /\ df_p ≡ₚ filter (fun r => bool_decide (product_id r = pid)) df
    /\ forall r, r ∈ df_p <-> r ∈ df /\ product_id r = pid.
Proof.
  intros df pid df_p. split; [apply sort_values_sorted|].
  split; [apply sort_values_perm|].
  intros r. unfold df_p, select_product. rewrite sort_values_perm.
  rewrite list_elem_of_filter, bool_decide_spec. tauto.
Qed.

(** X2.  When the product's rows carry pairwise distinct dates, the
    answer of [forecast_product] does not depend on the order in which
    the dataset lists its rows. *)
Theorem forecast_product_order_independent :
  forall (df1 df2 : list row) (pid : string) (horizon : Z),
    df1 ≡ₚ df2 ->
    NoDup (map date (filter (fun r => bool_decide (product_id r = pid)) df1)) ->
    forecast_product df1 pid horizon = forecast_product df2 pid horizon.
Proof.
  intros df1 df2 pid horizon Hp Hnd.
  assert (E : select_product df1 pid = select_product df2 pid).
  { apply sort_values_perm_invariant; [by rewrite Hp | done]. }
  unfold forecast_product. by rewrite E.
Qed.

(** The forty-day ramp, listed backwards. *)
Lemma forecast_product_order_independent_witness :
  forecast_product MoreSamples.ramp40 "P1" 3
  = forecast_product (reverse MoreSamples.ramp40) "P1" 3.
Proof.
  apply forecast_product_order_independent.
  - symmetry. apply reverse_Permutation.
  - assert (H : bool_decide
                  (NoDup (map date
                     (filter (fun r => bool_decide (product_id r = "P1"))
                        MoreSamples.ramp40))))
      by (vm_compute; exact I).
    exact (bool_decide_unpack _ H).
Defined.

(** X3.  Asking for a longer horizon does not change the earlier days:
    with at least 30 rows, the forecast for horizon [h] is the first [h]
    values of the forecast for any horizon [h' >= h], and the echoed
    history is the same. *)
Theorem forecast_prefix_of_longer_horizon :
  forall (df : list row) (pid : string) (h h' : Z),
    (30 <= length (select_product df pid))%nat ->
    (h <= h')%Z ->
    exists f f' history,
      forecast_product df pid h = Forecast pid f history
      /\ forecast_product df pid h' = Forecast pid f' history
      /\ f = take (Z.to_nat h) f'.
Proof.
  intros df pid h h' Hlen Hle.
  destruct (forecast_product_returns df pid h Hlen) as (c & Hc & E).
  destruct (forecast_product_returns df pid h' Hlen) as (c' & Hc' & E').
  rewrite Hc in Hc'. injection Hc' as <-.
  eexists _, _, _. split; [exact E|]. split; [exact E'|].
  destruct (steps_split h h' Hle) as [rest ->].
  rewrite run_loop_app.
  destruct (run_loop_future_values_extends c rest
              (run_loop c (initial_state
                 (map quantity_sold (select_product df pid))) (steps h)))
    as (ext & -> & _).
  symmetry. apply take_app_length'.
  by rewrite run_loop_future_values_length, steps_length.
Qed.

(** 35 days of history: horizon 2 against horizon 5. *)
Lemma forecast_prefix_of_longer_horizon_witness :
  exists f f' history,
    forecast_product Samples.flat35 "P1" 2 = Forecast "P1" f history
    /\ forecast_product Samples.flat35 "P1" 5 = Forecast "P1" f' history
    /\ f = take (Z.to_nat 2) f'.
Proof.
  apply forecast_prefix_of_longer_horizon.
  - vm_compute. lia.
  - lia.
Defined.

(** X4.  [_compute_seasonality_by_dow] has an entry for a weekday exactly
    when some row falls on it, and the entry is the mean of the
    quantities of those rows; its keys are weekdays 0..6.  So the season
    component falls back to the overall mean exactly for a weekday
    without any row. *)
Theorem seasonality_table_groups_by_weekday :
  forall (df_p : list row) (k : Z),
    let on_day := filter (fun r => weekday (date r) = k) df_p in
    _compute_seasonality_by_dow df_p !! k
    = (if decide (on_day = []) then None
       else Some (np_mean (map quantity_sold on_day)))
    /\ (is_Some (_compute_seasonality_by_dow df_p !! k) -> (0 <= k < 7)%Z).
Proof.
  intros df_p k on_day.
  assert (E : _compute_seasonality_by_dow df_p !! k
              = (if decide (on_day = []) then None
                 else Some (np_mean (map quantity_sold on_day)))).
  { unfold _compute_seasonality_by_dow.
    rewrite lookup_fmap, groupby_lookup.
    rewrite (filter_fmap_key (fun r => (weekday (date r), quantity_sold r))
               (fun kv => kv.1 = k)).
    cbn [fst]. fold on_day.
    destruct on_day as [|r0 rs]; [done|].
    destruct (decide (r0 :: rs = [])); [done|].
    cbn [map fmap option_fmap option_map]. by rewrite map_map. }
  split; [exact E|].
  rewrite E. destruct (decide (on_day = [])) as [|Hne]; [by intros [? ?]|].
  intros _. destruct on_day as [|r0 rs] eqn:Eo; [done|].
  assert (Hin : r0 ∈ on_day) by (rewrite Eo; by left).
  apply list_elem_of_filter in Hin as [<- _].
  unfold weekday. apply Z.mod_pos_bound. lia.
Qed.

(** The forty-day ramp has rows on Thursdays. *)
Lemma seasonality_table_groups_by_weekday_witness :
  is_Some (_compute_seasonality_by_dow MoreSamples.ramp40 !! 3%Z)
  /\ (0 <= 3 < 7)%Z.
Proof.
  destruct (seasonality_table_groups_by_weekday MoreSamples.ramp40 3)
    as [_ H].
  assert (Hs : is_Some (_compute_seasonality_by_dow MoreSamples.ramp40 !! 3%Z))
    by (vm_compute; by eexists).
  split; [exact Hs | exact (H Hs)].
Defined.

(** X5.  The trend is fitted on the last [max_window] values only:
    whatever precedes them does not change the result. *)
Theorem trend_ignores_older_history :
  forall (older recent : list Q) (max_window : nat),
    (2 <= length recent)%nat ->
    (max_window <= length recent)%nat ->
    _compute_trend (older ++ recent) max_window
    = _compute_trend recent max_window.
Proof.
  intros older recent w H2 Hw. unfold _compute_trend.
  rewrite length_app.
  destruct (Nat.ltb_spec (length older + length recent) 2); [lia|].
  destruct (Nat.ltb_spec (length recent) 2); [lia|].
  replace (Nat.min (length older + length recent) w) with w by lia.
  replace (Nat.min (length recent) w) with w by lia.
  by rewrite last_n_app_ge.
Qed.

(** Thirty old values in front of the 120-day line, window 90. *)
Lemma trend_ignores_older_history_witness :
  _compute_trend (replicate 30 7 ++ MoreSamples.line120) 90
  = _compute_trend MoreSamples.line120 90.
Proof.
  apply trend_ignores_older_history; vm_compute; lia.
Defined.

End PredictorMoreSpec.

Section LineFacts.

Lemma line_sums (alpha beta : Q) (xs ys : list Q) :
  Forall2 (fun x y => y == alpha * x + beta) xs ys ->
  Qsum ys == alpha * Qsum xs + Qlen xs * beta
  /\ Qdot xs ys == alpha * Qdot xs xs + beta * Qsum xs.
Proof.
  unfold Qdot. induction 1 as [|x y xs ys Hxy _ [IH1 IH2]].
  - split; unfold Qsum, Qlen; cbn [map combine length fold_right];
      change (inject_Z (Z.of_nat 0)) with 0; ring.
  - cbn [combine map fst snd]. rewrite !Qsum_cons, IH1, IH2, Hxy, Qlen_cons.
    split; ring.
Qed.

(** On points that lie on a line, the fit returns that line. *)
Lemma polyfit1_line (alpha beta : Q) (xs ys : list Q) (x1 x2 : Q) :
  Forall2 (fun x y => y == alpha * x + beta) xs ys ->
  In x1 xs -> In x2 xs -> ~ x1 == x2 ->
  (polyfit1 xs ys).1 == alpha /\ (polyfit1 xs ys).2 == beta.
Proof.
  intros Hline H1 H2 Hne.
  pose proof (spread_pos xs x1 x2 H1 H2 Hne) as HD.
  assert (Hn : 0 < Qlen xs) by (apply Qlen_pos; by destruct xs).
  destruct (line_sums alpha beta xs ys Hline) as [Hsy Hsxy].
  unfold polyfit1. cbn [fst snd].
  assert (Ha : (Qlen xs * Qdot xs ys - Qsum xs * Qsum ys)
               / (Qlen xs * Qdot xs xs - Qsum xs * Qsum xs) == alpha).
  { rewrite Hsy, Hsxy. field. lra. }
  split; [exact Ha|]. rewrite Ha, Hsy. field. lra.
Qed.

Lemma arange_snoc w :
  arange (S w) = arange w ++ [inject_Z (Z.of_nat w)].
Proof. unfold arange. by rewrite seq_S, map_app. Qed.

Lemma last_last_n {A : Type} (n : nat) (l : list A) :
  (0 < n)%nat -> last (last_n n l) = last l.
Proof.
  intros Hn. destruct l as [|x l] using rev_ind; [done|].
  unfold last_n. rewrite length_app. cbn [length].
  rewrite drop_app_le by lia. by rewrite !last_snoc.
Qed.

End LineFacts.

Module PredictorTrendSpec.

Import Predictor.

(** X6.  On a history whose last [w = min(len, 90)] quantities lie on a
    line [alpha * i + beta], [_compute_trend] returns the slope [alpha]
    and, as level, the value of the line at the last index, which is the
    last observed quantity. *)
Theorem linear_history_trend_exact :
  forall (values : list Q) (alpha beta : Q),
    (2 <= length values)%nat ->
    let w := Nat.min (length values) 90 in
    Forall2 (fun x y => y == alpha * x + beta)
      (arange w) (last_n w values) ->
    exists a level,
      _compute_trend values 90 = Some (a, level)
      /\ a == alpha
      /\ level == alpha * (inject_Z (Z.of_nat w) - 1) + beta
      /\ forall v, last values = Some v -> level == v.
Proof.
  intros values alpha beta Hlen w Hline.
  destruct (arange_has_0_1 w ltac:(lia)) as [H0 H1].
  destruct (polyfit1_line alpha beta _ _ 0 1 Hline H0 H1 ltac:(done))
    as [Ha Hb].
  rewrite (compute_trend_fits values Hlen). fold w.
  eexists _, _. split; [reflexivity|]. split; [exact Ha|].
  assert (Hlevel :
    (polyfit1 (arange w) (last_n w values)).2
    + (polyfit1 (arange w) (last_n w values)).1
      * (inject_Z (Z.of_nat w) - 1)
    == alpha * (inject_Z (Z.of_nat w) - 1) + beta)
    by (rewrite Ha, Hb; ring).
  split; [exact Hlevel|].
  intros v Hv. rewrite Hlevel.
  rewrite <- (last_last_n w values ltac:(lia)) in Hv.
  assert (Hw : (2 <= w)%nat) by lia.
  clear Ha Hb Hlevel H0 H1. clearbody w.
  destruct w as [|w']; [lia|].
  rewrite arange_snoc in Hline.
  apply Forall2_app_inv_l in Hline as (ys1 & ys2 & _ & Hlast & E).
  apply Forall2_cons_inv_l in Hlast as (y & ys2' & Hy & Hnil & ->).
  apply Forall2_nil_inv_l in Hnil as ->.
  rewrite E, last_snoc in Hv. injection Hv as <-.
  rewrite Hy, Nat2Z.inj_succ, <- Z.add_1_r, inject_Z_plus.
  change (inject_Z 1) with 1. ring.
Qed.

(** 120 days of [3 + 2 * day]: slope 2, level the last value 241. *)
Lemma linear_history_trend_exact_witness :
  exists a level,
    _compute_trend MoreSamples.line120 90 = Some (a, level)
    /\ a == 2
    /\ level == 2 * (inject_Z (Z.of_nat 90) - 1) + 63
    /\ forall v, last MoreSamples.line120 = Some v -> level == v.
Proof.
  apply (linear_history_trend_exact MoreSamples.line120 2 63).
  - vm_compute. lia.
  - vm_compute. repeat constructor.
Defined.

(** X7.  [_compute_trend] raises only on the empty list: with a window
    of at least 2 (the caller passes 90) it returns a slope and a level
    for every non-empty list, and the slope is 0 and the level the value
    itself for a single value. *)
Theorem compute_trend_raises_only_on_empty :
  forall (values : list Q) (max_window : nat),
    (2 <= max_window)%nat ->
    (_compute_trend values max_window = None <-> values = [])
    /\ (length values = 1%nat ->
        exists v, _compute_trend values max_window = Some (0, v)
                  /\ values = [v]).
Proof.
  intros values w Hw. split.
  - unfold _compute_trend.
    destruct (Nat.ltb_spec (length values) 2) as [Hlt|Hge].
    + destruct values as [|v [|v' values]]; cbn [length] in Hlt; try lia;
        cbn; split; done.
    + destruct (Nat.eqb_spec (Nat.min (length values) w) 0); [lia|].
      destruct (polyfit1 _ _). split; [done|].
      intros ->. cbn [length] in Hge. lia.
  - intros H1. destruct values as [|v [|v' values]]; cbn [length] in H1;
      try lia. by exists v.
Qed.

(** One value, window 90. *)
Lemma compute_trend_raises_only_on_empty_witness :
  (_compute_trend [5] 90 = None <-> [5] = [])
  /\ exists v, _compute_trend [5] 90 = Some (0, v) /\ [5] = [v].
Proof.
  destruct (compute_trend_raises_only_on_empty [5] 90 ltac:(lia)) as [H1 H2].
  split; [exact H1 | exact (H2 eq_refl)].
Defined.

End PredictorTrendSpec.

Section EchoFacts.

Lemma last_n_sorted {A : Type} (R : relation A) (n : nat) (l : list A) :
  StronglySorted R l -> StronglySorted R (last_n n l).
Proof.
  intros H. unfold last_n.
  rewrite <- (take_drop (length l - n) l) in H.
  by apply StronglySorted_app_1_r in H.
Qed.

Lemma last_n_elem_of {A : Type} (n : nat) (l : list A) (x : A) :
  x ∈ last_n n l -> x ∈ l.
Proof.
  unfold last_n. intros H.
  rewrite <- (take_drop (length l - n) l). apply elem_of_app. by right.
Qed.

End EchoFacts.

Module PredictorLoopSpec.

Import Predictor.

(** X8.  Once 30 steps have run, no observed quantity is left in the
    working window: it is exactly the last 30 predictions, so from step
    31 on the level is computed from predictions only. *)
Theorem window_only_predictions_after_30_steps :
  forall (c : context) (qty : list Q) (horizon : Z) (k : nat),
    (30 <= k)%nat -> (k <= Z.to_nat horizon)%nat ->
    let st := state_after c qty horizon k in
    length (future_values st) = k
    /\ window_values st = last_n 30 (future_values st).
Proof.
  intros c qty horizon k H30 Hk st.
  assert (Hn : length (future_values st) = k).
  { unfold st, state_after.
    rewrite run_loop_future_values_length, length_take, steps_length.
    cbn [initial_state future_values length]. lia. }
  split; [exact Hn|].
  unfold st. rewrite state_after_window_contents. fold st.
  apply last_n_app_ge. lia.
Qed.

(** Horizon 40, after 31 steps. *)
Lemma window_only_predictions_after_30_steps_witness :
  let c := {| last_date := Samples.day0; overall_mean := 4;
              dow_means := ∅; slope := 1 # 2; last_trend_level := 6 |} in
  let st := state_after c [3; 5; 4] 40 31 in
  length (future_values st) = 31%nat
  /\ window_values st = last_n 30 (future_values st).
Proof.
  intros c.
  apply (window_only_predictions_after_30_steps c [3; 5; 4] 40 31);
    vm_compute; lia.
Defined.

(** X9.  The history that [forecast_product] echoes is the tail of the
    product's rows in date order: the rows split into older ones
    followed by exactly the echoed ones, which are the last
    [min(120, n)], as (date, quantity) pairs in non-decreasing date
    order, none earlier than an older row; every pair comes from a row
    of that product. *)
Theorem history_echo_last_120 :
  forall (df : list row) (pid : string) (horizon : Z)
         (forecast : list Q) (history : list (Z * Q)),
    forecast_product df pid horizon = Forecast pid forecast history ->
    let rows := map (fun r => (date r, quantity_sold r))
                  (select_product df pid) in
    (exists older,
       rows = older ++ history
       /\ length older = (length rows - 120)%nat
       /\ Forall (fun o => Forall (fun h => (o.1 <= h.1)%Z) history) older)
    /\ length history = Nat.min 120 (length (select_product df pid))
    /\ StronglySorted (by_key fst) history
    /\ forall d q,
         (d, q) ∈ history ->
         exists r, r ∈ df /\ product_id r = pid
                   /\ date r = d /\ quantity_sold r = q.
Proof.
  intros df pid horizon forecast history H rows.
  unfold forecast_product in H.
  destruct (_ =? _)%nat; [done|]. destruct (_ <? _)%nat; [done|].
  destruct (make_context _) as [c|]; [|done].
  injection H as _ <-.
  assert (Hsorted : StronglySorted (by_key fst) rows).
  { apply (StronglySorted_fmap (fun r => (date r, quantity_sold r))
             (by_key date) (by_key fst)); [done|].
    apply sort_values_sorted. }
  assert (Hsplit :
    rows = firstn (length rows - 120) rows
           ++ map (fun r => (date r, quantity_sold r))
                (last_n 120 (select_product df pid))).
  { unfold last_n. rewrite <- skipn_map. fold rows.
    replace (length (select_product df pid)) with (length rows)
      by (unfold rows; by rewrite length_map).
    symmetry. apply take_drop. }
  split; [|split; [|split]].
  - exists (firstn (length rows - 120) rows).
    split; [exact Hsplit|]. split; [rewrite length_take; lia|].
    rewrite Hsplit in Hsorted.
    apply Forall_forall. intros o Ho.
    apply Forall_forall. intros h Hh.
    exact (StronglySorted_app_1_elem_of (by_key fst) _ _ o h Hsorted Ho Hh).
  - by rewrite length_map, last_n_length.
  - apply (StronglySorted_fmap (fun r => (date r, quantity_sold r))
             (by_key date) (by_key fst)); [done|].
    apply last_n_sorted, sort_values_sorted.
  - intros d q Hin.
    apply list_elem_of_fmap in Hin as (r & [= -> ->] & Hr).
    apply last_n_elem_of in Hr.
    unfold select_product in Hr. rewrite sort_values_perm in Hr.
    apply list_elem_of_filter in Hr as [Hp Hr].
    apply bool_decide_spec in Hp. by exists r.
Qed.

(** The 365-day sample: the echoed history leaves the 245 oldest rows
    out. *)
Lemma history_echo_last_120_witness :
  exists history older,
    map (fun r => (date r, quantity_sold r))
      (select_product Samples.spike365 "P1") = older ++ history
    /\ length older = 245%nat
    /\ length history = 120%nat
    /\ StronglySorted (by_key (fst : Z * Q -> Z)) history.
Proof.
  destruct (forecast_product Samples.spike365 "P1" 2) as [| |p f h] eqn:E;
    [vm_compute in E; discriminate E..|].
  assert (p = "P1") as -> by (vm_compute in E; by injection E as <- _ _).
  destruct (history_echo_last_120 _ _ _ _ _ E)
    as ((older & H1 & H2 & _) & H3 & H4 & _).
  exists h, older. split; [exact H1|]. split; [|split; [|exact H4]].
  - rewrite H2. vm_compute. reflexivity.
  - rewrite H3. vm_compute. reflexivity.
Defined.

End PredictorLoopSpec.

Section RoundBounds.

Lemma py_round_near (x : Q) :
  x - (1 # 2) <= inject_Z (py_round x) <= x + (1 # 2).
Proof.
  unfold py_round.
  pose proof (Qfloor_le x) as Hlo. pose proof (Qlt_floor x) as Hhi.
  rewrite inject_Z_plus in Hhi. change (inject_Z 1) with 1 in Hhi.
  destruct (Qcompare_spec (x - inject_Z (Qfloor x)) (1 # 2)) as [E|E|E].
  - destruct (Z.even (Qfloor x));
      [|rewrite inject_Z_plus; change (inject_Z 1) with 1]; lra.
  - lra.
  - rewrite inject_Z_plus. change (inject_Z 1) with 1. lra.
Qed.

Lemma weekday_week_later (d : Z) : weekday (d + 7) = weekday d.
Proof.
  unfold weekday. replace (d + 7 + 6)%Z with (d + 6 + 1 * 7)%Z by lia.
  apply Z.mod_add. lia.
Qed.

End RoundBounds.

Section FrameFacts.

Import Matpfn.
Variable np_sqrt : Q -> Q.

Lemma dropna_date_dated (pdf : list row) :
  dropna_date (filter (fun r => is_Some (date r)) pdf) = dropna_date pdf.
Proof.
  unfold dropna_date. induction pdf as [|r pdf IH]; [done|].
  rewrite filter_cons. destruct (decide (is_Some (date r))) as [Hs|Hn].
  - cbn [omap list_omap]. destruct (date r); cbn; by rewrite <- IH.
  - cbn [omap list_omap]. destruct (date r) as [d|]; [|exact IH].
    exfalso. apply Hn. by eexists.
Qed.

End FrameFacts.

Module MatpfnMoreSpec.

Import Matpfn.

(** X11.  Rows whose date cannot be parsed play no part: as long as one
    row is dated, the frame without its undated rows gives the same
    forecast. *)
Theorem undated_rows_ignored :
  forall (np_sqrt : Q -> Q) (pdf : list row) (horizon : Z),
    dropna_date pdf <> [] ->
    simple_forecast np_sqrt pdf horizon
    = simple_forecast np_sqrt (filter (fun r => is_Some (date r)) pdf) horizon.
Proof.
  intros np_sqrt pdf horizon Hne.
  pose proof (dropna_date_dated pdf) as Ed.
  unfold simple_forecast. rewrite Ed.
  destruct pdf as [|r pdf]; [done|].
  destruct (filter _ (r :: pdf)) as [|r' pdf'] eqn:Ef; [|done].
  exfalso. apply Hne. by rewrite <- Ed.
Qed.

(** Ten dated rows with two undated ones among them. *)
Lemma undated_rows_ignored_witness :
  simple_forecast Samples.sqrt_approx MoreSamples.rising10_gaps 4
  = simple_forecast Samples.sqrt_approx
      (filter (fun r => is_Some (date r)) MoreSamples.rising10_gaps) 4.
Proof. by apply undated_rows_ignored. Defined.

(** X12.  When the dated rows carry pairwise distinct dates, the
    forecast of [simple_forecast] does not depend on the order of the
    rows of the frame. *)
Theorem simple_forecast_order_independent :
  forall (np_sqrt : Q -> Q) (pdf1 pdf2 : list row) (horizon : Z),
    pdf1 ≡ₚ pdf2 ->
    NoDup (map fst (dropna_date pdf1)) ->
    simple_forecast np_sqrt pdf1 horizon
    = simple_forecast np_sqrt pdf2 horizon.
Proof.
  intros np_sqrt pdf1 pdf2 horizon Hp Hnd.
  assert (E : sort_values fst (dropna_date pdf1)
              = sort_values fst (dropna_date pdf2)).
  { apply sort_values_perm_invariant; [|done].
    unfold dropna_date. by rewrite Hp. }
  unfold simple_forecast.
  by rewrite E, (Permutation_length Hp).
Qed.

(** The ten rising days, listed backwards. *)
Lemma simple_forecast_order_independent_witness :
  simple_forecast Samples.sqrt_approx Samples.rising10 4
  = simple_forecast Samples.sqrt_approx (reverse Samples.rising10) 4.
Proof.
  apply simple_forecast_order_independent.
  - symmetry. apply reverse_Permutation.
  - assert (H : bool_decide
                  (NoDup (map fst (dropna_date Samples.rising10))))
      by (vm_compute; exact I).
    exact (bool_decide_unpack _ H).
Defined.

(** X13.  On a frame of at least 5 dated rows every returned quantity is
    a non-negative integer, and when the volatility is positive it is
    within half a unit of the band: at least the mean minus three
    volatilities minus 1/2, and, unless it is 0, at most the mean plus
    three volatilities plus 1/2. *)
Theorem forecast_within_rounded_band :
  forall (np_sqrt : Q -> Q) (pdf : list row) (horizon : Z),
    let df := sort_values fst (dropna_date pdf) in
    (5 <= length df)%nat ->
    exists last_row l,
      last df = Some last_row
      /\ simple_forecast np_sqrt pdf horizon = Returned l
      /\ let c := make_context np_sqrt df last_row in
         forall z, z ∈ l ->
           (0 <= z)%Z
           /\ (0 < vol c ->
               global_mean c - 3 * vol c - (1 # 2) <= inject_Z z
               /\ ((0 < z)%Z ->
                   inject_Z z <= global_mean c + 3 * vol c + (1 # 2))).
Proof.
  intros np_sqrt pdf horizon df Hlen.
  destruct (simple_forecast_main np_sqrt pdf horizon Hlen)
    as (last_row & Hlast & E).
  eexists last_row, _. split; [done|]. split; [exact E|].
  intros c z Hz. apply list_elem_of_fmap in Hz as (i & -> & _).
  subst c df. set (c := make_context _ _ _).
  change (forecast_val c i) with (Z.max 0 (py_round (clip c (fused c i)))).
  pose proof (py_round_near (clip c (fused c i))) as [Rlo Rhi].
  revert Rlo Rhi. generalize (py_round (clip c (fused c i))). intros p Rlo Rhi.
  split; [lia|]. intros Hv.
  pose proof (clip_in_band c (fused c i) Hv) as [Hlo Hhi].
  destruct (Z.max_spec 0 p) as [[Hp ->]|[Hp ->]].
  - split; [lra | intros _; lra].
  - split; [|intros ?; lia].
    assert (inject_Z p <= inject_Z 0) by (rewrite <- Zle_Qle; lia).
    change (inject_Z 0) with 0 in *. lra.
Qed.

(** Ten days rising by 2 a day, horizon 3. *)
Lemma forecast_within_rounded_band_witness :
  exists l,
    simple_forecast Samples.sqrt_approx Samples.rising10 3 = Returned l
    /\ forall z, z ∈ l -> (0 <= z)%Z.
Proof.
  destruct (forecast_within_rounded_band Samples.sqrt_approx
              Samples.rising10 3) as (last_row & l & _ & E & H).
  - vm_compute. lia.
  - exists l. split; [exact E|]. intros z Hz. exact (proj1 (H z Hz)).
Defined.

(** X14.  Before the clip, the fused value of [simple_forecast] is a
    weekly pattern on top of a straight line: a week later it has moved
    by seven times the slope, weighted by the trend's share 1/2. *)
Theorem fused_weekly_pattern_plus_trend :
  forall (c : context) (i : Z),
    fused c (i + 7) == fused c i + (7 # 2) * trend_slope c.
Proof.
  intros c i. unfold fused, trend_pred, seasonal_adj.
  replace (last_date c + (i + 7))%Z with (last_date c + i + 7)%Z by lia.
  rewrite weekday_week_later.
  replace (last_date c + i + 7 - min_date c)%Z
    with ((last_date c + i - min_date c) + 7)%Z by lia.
  rewrite inject_Z_plus. change (inject_Z 7) with 7. ring.
Qed.

End MatpfnMoreSpec.

Section AppFacts.

Import App.

Lemma unique_acc_spec (l seen : list string) :
  NoDup seen ->
  let r := fold_left
             (fun seen x => if bool_decide (x ∈ seen) then seen else seen ++ [x])
             l seen in
  NoDup r /\ forall x, x ∈ r <-> x ∈ seen \/ x ∈ l.
Proof.
  revert seen. induction l as [|y l IH]; intros seen Hnd; cbn [fold_left].
  - split; [done|]. intros x. rewrite elem_of_nil. tauto.
  - destruct (bool_decide_reflect (y ∈ seen)) as [Hin|Hout].
    + destruct (IH seen Hnd) as [H1 H2]. split; [done|].
      intros x. rewrite H2, elem_of_cons. split; [tauto|].
      intros [?|[->|?]]; tauto.
    + assert (Hnd' : NoDup (seen ++ [y])).
      { apply NoDup_app. split; [done|]. split; [|apply NoDup_singleton].
        intros x Hx Hy. apply list_elem_of_singleton in Hy as ->. done. }
      destruct (IH _ Hnd') as [H1 H2]. split; [done|].
      intros x. rewrite H2, elem_of_app, list_elem_of_singleton, elem_of_cons.
      tauto.
Qed.

Lemma unique_spec (l : list string) :
  NoDup (unique l) /\ forall x, x ∈ unique l <-> x ∈ l.
Proof.
  destruct (unique_acc_spec l [] (NoDup_nil_2)) as [H1 H2].
  split; [exact H1|]. intros x. unfold unique. rewrite H2, elem_of_nil. tauto.
Qed.

Lemma insert_str_perm s (l : list string) : insert_str s l ≡ₚ s :: l.
Proof.
  induction l as [|s' l IH]; [done|]. cbn [insert_str].
  destruct (String.leb s' s); [|done].
  rewrite IH. apply Permutation_swap.
Qed.

Lemma sorted_acc_perm (l acc : list string) :
  fold_left (fun acc s => insert_str s acc) l acc ≡ₚ l ++ acc.
Proof.
  revert acc. induction l as [|s l IH]; intros acc; [done|].
  cbn [fold_left]. rewrite IH, insert_str_perm.
  symmetry. apply Permutation_middle.
Qed.

Lemma sorted_perm (l : list string) : sorted l ≡ₚ l.
Proof. unfold sorted. by rewrite sorted_acc_perm, app_nil_r. Qed.

Lemma insert_str_HdRel a s (l : list string) :
  HdRel str_le a l -> str_le a s -> HdRel str_le a (insert_str s l).
Proof.
  intros Hl Has. destruct l as [|s' l]; cbn [insert_str]; [by constructor|].
  destruct (String.leb s' s); constructor; [|done].
  by apply HdRel_inv in Hl.
Qed.

Lemma insert_str_sorted s (l : list string) :
  Sorted str_le l -> Sorted str_le (insert_str s l).
Proof.
  induction 1 as [|s' l Hl IH Hhd]; cbn [insert_str]; [by repeat constructor|].
  destruct (String.leb s' s) eqn:E.
  - constructor; [done|]. by apply insert_str_HdRel.
  - constructor; [by constructor|]. constructor.
    destruct (String.leb_total s s') as [H|H]; [done|].
    unfold str_le. congruence.
Qed.

Lemma sorted_acc_sorted (l acc : list string) :
  Sorted str_le acc ->
  Sorted str_le (fold_left (fun acc s => insert_str s acc) l acc).
Proof.
  revert acc. induction l as [|s l IH]; intros acc H; [done|].
  cbn [fold_left]. by apply IH, insert_str_sorted.
Qed.

Lemma PRODUCT_LIST_elem_of (df : list Predictor.row) (pid : string) :
  pid ∈ PRODUCT_LIST df
  <-> exists r, r ∈ df /\ Predictor.product_id r = pid.
Proof.
  unfold PRODUCT_LIST. rewrite sorted_perm.
  destruct (unique_spec (map Predictor.product_id df)) as [_ ->].
  rewrite list_elem_of_fmap. split; intros (r & H1 & H2); eauto.
Qed.

Lemma PRODUCT_LIST_selects (df : list Predictor.row) (pid : string) :
  pid ∈ PRODUCT_LIST df <-> Predictor.select_product df pid <> [].
Proof.
  rewrite PRODUCT_LIST_elem_of. split.
  - intros (r & Hr & Hp) E.
    assert (Hin : r ∈ Predictor.select_product df pid).
    { unfold Predictor.select_product. rewrite sort_values_perm.
      apply list_elem_of_filter. split; [by apply bool_decide_spec | done]. }
    rewrite E in Hin. by apply elem_of_nil in Hin.
  - intros Hne. destruct (Predictor.select_product df pid) as [|r l] eqn:E;
      [done|].
    assert (Hin : r ∈ Predictor.select_product df pid) by (rewrite E; by left).
    unfold Predictor.select_product in Hin. rewrite sort_values_perm in Hin.
    apply list_elem_of_filter in Hin as [Hp Hr].
    apply bool_decide_spec in Hp. by exists r.
Qed.

End AppFacts.

Module AppSpec.

Import App.

(** X15.  [PRODUCT_LIST] holds exactly the product ids that occur in the
    dataset, each once, in ascending order; so [GET /health] counts the
    distinct products. *)
Theorem product_list_distinct_sorted :
  forall (df : list Predictor.row),
    NoDup (PRODUCT_LIST df)
    /\ Sorted str_le (PRODUCT_LIST df)
    /\ (forall pid,
          pid ∈ PRODUCT_LIST df
          <-> exists r, r ∈ df /\ Predictor.product_id r = pid)
    /\ products (health df)
       = size (list_to_set (map Predictor.product_id df) : gset string).
Proof.
  intros df.
  assert (Hnd : NoDup (PRODUCT_LIST df)).
  { unfold PRODUCT_LIST. rewrite sorted_perm. apply unique_spec. }
  split; [exact Hnd|]. split; [apply sorted_acc_sorted; constructor|].
  split; [apply PRODUCT_LIST_elem_of|].
  cbn [health products]. rewrite <- (size_list_to_set (C := gset string)) by done.
  f_equal. apply set_eq. intros pid.
  rewrite !elem_of_list_to_set, PRODUCT_LIST_elem_of, list_elem_of_fmap.
  split; intros (r & H1 & H2); eauto.
Qed.

(** X16.  [GET /predict/{product_id}] answers 404 exactly when the
    dataset has no row of the product, and 500 "Not enough history"
    exactly when it has between 1 and 29.  A result comes back only for
    30 rows or more, for the product asked, with exactly [horizon]
    non-negative quantities; and for 30 rows or more it does come back
    whenever the dates up to the horizon are ones pandas can hold.  The
    "No sales data" error of [forecast_product] never reaches the
    client. *)
Theorem predict_product_responses :
  forall (df : list Predictor.row) (pid : string) (horizon : Z),
    let df_p := Predictor.select_product df pid in
    let n := length df_p in
    let r := predict_product df pid horizon in
    (r = HTTPException 404 "Unknown product_id" <-> n = 0%nat)
    /\ (r = HTTPException 500
              "Not enough history (<30 days) for this product."
        <-> (0 < n < 30)%nat)
    /\ (forall p forecast history,
          r = Body p forecast history ->
          p = pid /\ (30 <= n)%nat
          /\ length forecast = Z.to_nat horizon
          /\ Forall (fun y => 0 <= y) forecast)
    /\ ((30 <= n)%nat ->
        dates_representable (Predictor.date_max df_p) horizon ->
        exists forecast history, r = Body pid forecast history)
    /\ r <> HTTPException 500 "No sales data for this product.".
Proof.
  intros df pid horizon df_p n r.
  assert (Hcases :
    (n = 0%nat /\ r = HTTPException 404 "Unknown product_id")
    \/ ((0 < n < 30)%nat
        /\ r = HTTPException 500
                 "Not enough history (<30 days) for this product.")
    \/ ((30 <= n)%nat
        /\ exists forecast history,
             r = Body pid forecast history
             /\ length forecast = Z.to_nat horizon
             /\ Forall (fun y => 0 <= y) forecast)).
  { subst r. unfold predict_product.
    destruct (bool_decide_reflect (pid ∈ PRODUCT_LIST df)) as [Hin|Hout].
    - apply PRODUCT_LIST_selects in Hin. fold df_p in Hin.
      assert (Hn : (0 < n)%nat).
      { subst n. destruct df_p; [done|]. cbn [length]. lia. }
      destruct (decide (30 <= n)%nat) as [H30|H30].
      + right. right. split; [done|].
        destruct (forecast_product_returns df pid horizon H30) as (c & _ & E).
        rewrite E. eexists _, _. split; [reflexivity|]. split.
        * by rewrite run_loop_future_values_length, steps_length.
        * apply run_loop_future_values_nonneg. constructor.
      + right. left. split; [lia|].
        unfold Predictor.forecast_product. fold df_p. fold n.
        destruct (Nat.eqb_spec n 0); [lia|].
        by destruct (Nat.ltb_spec n 30); [|lia].
    - left. split; [|done].
      destruct (decide (n = 0%nat)) as [|Hn]; [done|].
      exfalso. apply Hout, PRODUCT_LIST_selects. fold df_p. intros E.
      subst n. rewrite E in Hn. done. }
  split; [|split; [|split; [|split]]].
  - split.
    + intros E. destruct Hcases as [[H _]|[[H E']|[H (f & h & E' & _)]]];
        [done | rewrite E in E'; discriminate E'
         | rewrite E in E'; discriminate E'].
    + intros E. destruct Hcases as [[_ H]|[[H _]|[H _]]]; [done | lia | lia].
  - split.
    + intros E. destruct Hcases as [[_ E']|[[H _]|[_ (f & h & E' & _)]]];
        [rewrite E in E'; discriminate E' | done
         | rewrite E in E'; discriminate E'].
    + intros H. destruct Hcases as [[H' _]|[[_ H']|[H' _]]];
        [lia | done | lia].
  - intros p f h E.
    destruct Hcases as [[_ E']|[[_ E']|[H (f' & h' & E' & Hlen & Hnn)]]];
      [rewrite E in E'; discriminate E'
       | rewrite E in E'; discriminate E' |].
    rewrite E in E'. injection E' as -> -> ->. done.
  - intros H _. destruct Hcases as [[H' _]|[[H' _]|[_ (f & h & E & _)]]];
      [lia | lia | by eexists _, _].
  - intros E. destruct Hcases as [[_ E']|[[_ E']|[_ (f & h & E' & _)]]];
      rewrite E in E'; discriminate E'.
Qed.

(** 35 days of history, horizon 5: the result comes back. *)
Lemma predict_product_responses_witness :
  exists forecast history,
    predict_product Samples.flat35 "P1" 5 = Body "P1" forecast history.
Proof.
  destruct (predict_product_responses Samples.flat35 "P1" 5)
    as (_ & _ & _ & H & _).
  apply H.
  - vm_compute. lia.
  - split; vm_compute; discriminate.
Defined.

End AppSpec.

Section ShiftFacts.

Lemma insert_by_map {A : Type} (key : A -> Z) (f : A -> A) (r : A)
    (l : list A) :
  (forall a b, (key (f a) <=? key (f b))%Z = (key a <=? key b)%Z) ->
  insert_by key (f r) (map f l) = map f (insert_by key r l).
Proof.
  intros Hk. induction l as [|r' l IH]; [done|].
  cbn [map insert_by]. rewrite Hk.
  destruct (key r' <=? key r)%Z; cbn [map]; by rewrite ?IH.
Qed.

Lemma sort_values_map {A : Type} (key : A -> Z) (f : A -> A) (l : list A) :
  (forall a b, (key (f a) <=? key (f b))%Z = (key a <=? key b)%Z) ->
  sort_values key (map f l) = map f (sort_values key l).
Proof.
  intros Hk. unfold sort_values.
  change (@nil A) with (map f []) at 1. generalize (@nil A).
  induction l as [|r l IH]; intros acc; [done|].
  cbn [map fold_left]. rewrite insert_by_map by done. apply IH.
Qed.

Lemma fold_max_shift (delta : Z) (ds : list Z) : forall d,
  fold_left Z.max (map (fun x => (x + delta)%Z) ds) (d + delta)%Z
  = (fold_left Z.max ds d + delta)%Z.
Proof.
  induction ds as [|x ds IH]; intros d; [done|].
  cbn [map fold_left]. rewrite <- IH. f_equal. lia.
Qed.

Lemma fold_min_shift (delta : Z) (ds : list Z) : forall d,
  fold_left Z.min (map (fun x => (x + delta)%Z) ds) (d + delta)%Z
  = (fold_left Z.min ds d + delta)%Z.
Proof.
  induction ds as [|x ds IH]; intros d; [done|].
  cbn [map fold_left]. rewrite <- IH. f_equal. lia.
Qed.

Lemma weekday_weeks_later (d k : Z) : weekday (d + 7 * k) = weekday d.
Proof.
  unfold weekday. replace (d + 7 * k + 6)%Z with (d + 6 + k * 7)%Z by lia.
  apply Z.mod_add. lia.
Qed.

End ShiftFacts.

Section PredictorShift.

Import Predictor.

Lemma select_product_shift (delta : Z) df pid :
  select_product (map (shift_days delta) df) pid
  = map (shift_days delta) (select_product df pid).
Proof.
  unfold select_product.
  rewrite (filter_fmap_key (shift_days delta)
             (fun r => bool_decide (product_id r = pid))).
  cbn [shift_days product_id].
  apply sort_values_map. intros a b. cbn [shift_days date].
  destruct (Z.leb_spec (date a + delta) (date b + delta)),
           (Z.leb_spec (date a) (date b)); lia || done.
Qed.

Lemma date_max_shift (delta : Z) (l : list row) :
  l <> [] -> date_max (map (shift_days delta) l) = (date_max l + delta)%Z.
Proof.
  intros Hne. unfold date_max. destruct l as [|r l]; [done|].
  cbn [map shift_days date]. rewrite map_map. cbn [shift_days date].
  rewrite <- fold_max_shift. by rewrite map_map.
Qed.

Lemma make_context_shift (k : Z) (l : list row) :
  l <> [] ->
  make_context (map (shift_days (7 * k)) l)
  = (fun c => {| last_date := (last_date c + 7 * k)%Z;
                 overall_mean := overall_mean c;
                 dow_means := dow_means c;
                 slope := slope c;
                 last_trend_level := last_trend_level c |})
    <$> make_context l.
Proof.
  intros Hne. unfold make_context, _compute_seasonality_by_dow.
  rewrite !map_map. cbn [shift_days quantity_sold date].
  rewrite (date_max_shift (7 * k) l Hne).
  assert (E : map (fun x => (weekday (date x + 7 * k), quantity_sold x)) l
              = map (fun r => (weekday (date r), quantity_sold r)) l).
  { apply map_ext. intros r. by rewrite weekday_weeks_later. }
  rewrite E.
  by destruct (_compute_trend _ _) as [[a b]|].
Qed.

Lemma run_loop_shift (k : Z) (c c' : context) ss : forall st st',
  last_date c' = (last_date c + 7 * k)%Z ->
  overall_mean c' = overall_mean c -> dow_means c' = dow_means c ->
  slope c' = slope c -> last_trend_level c' = last_trend_level c ->
  window_values st' = window_values st ->
  future_values st' = future_values st ->
  future_values (run_loop c' st' ss) = future_values (run_loop c st ss).
Proof.
  induction ss as [|s ss IH]; intros st st' Hd Hm Hw Hs Hl Ew Ef; [done|].
  cbn [run_loop fold_left]. apply IH; try done.
  - cbn [forecast_step window_values]. rewrite Ew. do 2 f_equal.
    unfold fused, trend_component, season_component.
    rewrite Hd, Hm, Hw, Hs, Hl.
    replace (last_date c + 7 * k + s)%Z with (last_date c + s + 7 * k)%Z by lia.
    by rewrite weekday_weeks_later.
  - cbn [forecast_step future_values]. rewrite Ew, Ef. do 3 f_equal.
    unfold fused, trend_component, season_component.
    rewrite Hd, Hm, Hw, Hs, Hl.
    replace (last_date c + 7 * k + s)%Z with (last_date c + s + 7 * k)%Z by lia.
    by rewrite weekday_weeks_later.
Qed.

End PredictorShift.

Module CalendarSpec.

Import Predictor.

(** X17.  [forecast_product] uses the dates only through their order and
    their weekday: moving every row by a whole number of weeks leaves the
    forecast (or the error) unchanged, and only moves the dates of the
    echoed history. *)
Theorem forecast_product_week_shift :
  forall (df : list row) (pid : string) (horizon k : Z),
    forecast_product (map (shift_days (7 * k)) df) pid horizon
    = match forecast_product df pid horizon with
      | Forecast p forecast history =>
          Forecast p forecast
            (map (shift_pair (7 * k)) history)
      | r => r
      end.
Proof.
  intros df pid horizon k. unfold forecast_product.
  rewrite select_product_shift, length_map.
  set (df_p := select_product df pid).
  destruct (Nat.eqb_spec (length df_p) 0) as [|Hne]; [done|].
  destruct (Nat.ltb_spec (length df_p) 30) as [|H30]; [done|].
  rewrite make_context_shift by (intros E; by rewrite E in Hne).
  destruct (make_context df_p) as [c|]; [|done].
  cbn [fmap option_fmap option_map]. f_equal.
  - rewrite map_map. cbn [shift_days quantity_sold].
    by apply (run_loop_shift k c).
  - unfold last_n. rewrite length_map, <- !skipn_map, !map_map. done.
Qed.

End CalendarSpec.

Section FrameShift.

Import Matpfn.
Variable np_sqrt : Q -> Q.

Lemma dropna_date_shift (delta : Z) (pdf : list row) :
  dropna_date (map (shift_frame_days delta) pdf)
  = map (shift_pair delta) (dropna_date pdf).
Proof.
  unfold dropna_date. induction pdf as [|r pdf IH]; [done|].
  cbn [map omap list_omap]. rewrite IH.
  destruct r as [[d|] q]; done.
Qed.

Lemma date_min_shift (delta : Z) (df : list (Z * Q)) :
  df <> [] -> date_min (map (shift_pair delta) df) = (date_min df + delta)%Z.
Proof.
  intros Hne. unfold date_min. destruct df as [|r df]; [done|].
  cbn [map shift_pair fst]. rewrite map_map. cbn [shift_pair fst].
  rewrite <- fold_min_shift. by rewrite map_map.
Qed.

Lemma forecast_val_shift (k : Z) (df : list (Z * Q)) (last_row : Z * Q) i :
  df <> [] ->
  forecast_val
    (make_context np_sqrt (map (shift_pair (7 * k)) df) (shift_pair (7 * k) last_row)) i
  = forecast_val (make_context np_sqrt df last_row) i.
Proof.
  intros Hne. unfold make_context.
  rewrite (date_min_shift (7 * k) df Hne), !map_map, length_map.
  assert (Et : map (fun x => inject_Z ((shift_pair (7 * k) x).1
                                       - (date_min df + 7 * k))) df
               = map (fun r => inject_Z (r.1 - date_min df)) df).
  { apply map_ext. intros r. cbn [shift_pair fst]. f_equal. lia. }
  assert (Ey : map (fun x => (shift_pair (7 * k) x).2) df = map snd df)
    by (by apply map_ext).
  assert (Ew : map (fun x => (weekday (shift_pair (7 * k) x).1,
                              (shift_pair (7 * k) x).2)) df
               = map (fun r => (weekday r.1, r.2)) df).
  { apply map_ext. intros r. cbn [shift_pair fst snd].
    by rewrite weekday_weeks_later. }
  rewrite Et, Ey, Ew.
  destruct (fit_trend _ _) as [a b].
  unfold forecast_val, fused, clip, trend_pred, seasonal_adj.
  cbn [trend_slope trend_intercept dow_means global_mean level_mean last_val
       vol last_date min_date shift_pair fst snd].
  replace (last_row.1 + 7 * k + i - (date_min df + 7 * k))%Z
    with (last_row.1 + i - date_min df)%Z by lia.
  replace (last_row.1 + 7 * k + i)%Z with (last_row.1 + i + 7 * k)%Z by lia.
  by rewrite weekday_weeks_later.
Qed.

End FrameShift.

Module FrameCalendarSpec.

(** X18.  [simple_forecast] uses the dates only through their order,
    their distance to the first date and their weekday: moving every
    dated row by a whole number of weeks leaves the outcome unchanged. *)
Theorem simple_forecast_week_shift :
  forall (np_sqrt : Q -> Q) (pdf : list Matpfn.row) (horizon k : Z),
    Matpfn.simple_forecast np_sqrt
      (map (shift_frame_days (7 * k)) pdf) horizon
    = Matpfn.simple_forecast np_sqrt pdf horizon.
Proof.
  intros np_sqrt pdf horizon k.
  unfold Matpfn.simple_forecast. rewrite length_map, dropna_date_shift.
  destruct (Nat.eqb_spec (length pdf) 0); [done|].
  rewrite (sort_values_map fst (shift_pair (7 * k))).
  2:{ intros a b. cbn [shift_pair fst].
      destruct (Z.leb_spec (a.1 + 7 * k) (b.1 + 7 * k)),
               (Z.leb_spec a.1 b.1); lia || done. }
  set (df := sort_values fst (Matpfn.dropna_date pdf)).
  rewrite length_map, fmap_last.
  destruct (last df) as [last_row|] eqn:E; cbn [fmap option_fmap option_map];
    [|done].
  destruct (length df <? 5)%nat; [done|].
  f_equal. apply map_ext. intros i. apply forecast_val_shift.
  intros E0. by rewrite E0 in E.
Qed.

End FrameCalendarSpec.
